(** * Shallow embedding of the cohere-toolkit tools and agent router

    Three source files are embedded, one module each:
    - [EPLaw]: [src/community/tools/eplaw.py], the query-expansion, search,
      deduplication, ranking and truncation pipeline of [EPLaw.call];
    - [PatentClaims]: [src/community/tools/patentclaims.py], the OAuth2 token
      exchange and claim retrieval of [PatentClaims.call];
    - [AgentRouter]: [src/backend/routers/agent.py], the CRUD handlers for
      agents and their tool metadata.

    Python [str] values are [string]s whose characters are read as code
    points below 256.  External services (chat, vector search, HTTP, the
    persistence layer) are oracles that thread an abstract world state and
    may raise. *)

From Stdlib Require Import List String Ascii Bool Arith ZArith QArith Lia.
From Stdlib Require Import Sorted Permutation DecimalString.
Import ListNotations.

Local Open Scope string_scope.
Local Open Scope list_scope.
Local Open Scope nat_scope.

(** ** Python strings *)

Module PyStr.

(** [str.isspace] on one character, for code points below 256: the ASCII
    controls 9-13 and 28-31, the space, NEL (133) and NBSP (160). *)
Definition isspace (c : ascii) : bool :=
  let n := nat_of_ascii c in
  ((9 <=? n) && (n <=? 13)) || ((28 <=? n) && (n <=? 32))
  || (n =? 133) || (n =? 160).

Fixpoint lstrip (s : string) : string :=
  match s with
  | EmptyString => EmptyString
  | String c s' => if isspace c then lstrip s' else s
  end.

Fixpoint rstrip (s : string) : string :=
  match s with
  | EmptyString => EmptyString
  | String c s' =>
      match rstrip s' with
      | EmptyString => if isspace c then EmptyString else String c EmptyString
      | r => String c r
      end
  end.

(** [s.strip()] *)
Definition strip (s : string) : string := rstrip (lstrip s).

(** [s[n:]] *)
Fixpoint drop (n : nat) (s : string) : string :=
  match n, s with
  | O, _ => s
  | S _, EmptyString => EmptyString
  | S k, String _ s' => drop k s'
  end.

(** [s[:n]] *)
Fixpoint take (n : nat) (s : string) : string :=
  match n, s with
  | O, _ => EmptyString
  | S _, EmptyString => EmptyString
  | S k, String c s' => String c (take k s')
  end.

(** [s.find(sep)]: the index of the first occurrence of [sep], if any. *)
Fixpoint find (sep s : string) : option nat :=
  if prefix sep s then Some 0
  else match s with
       | EmptyString => None
       | String _ s' => option_map S (find sep s')
       end.

(** [s.split(sep)] for a non-empty [sep] (Python raises [ValueError] on an
    empty one; the only separator the code passes is a literal).  The scan
    goes left to right; [skip] counts the characters of a separator just
    matched that are still to be passed over.  The result is never empty. *)
Fixpoint split_from (sep : string) (skip : nat) (s : string) : list string :=
  match s with
  | EmptyString => [EmptyString]
  | String c s' =>
      match skip with
      | S k => split_from sep k s'
      | O =>
          if prefix sep s
          then EmptyString :: split_from sep (String.length sep - 1) s'
          else match split_from sep 0 s' with
               | h :: t => String c h :: t
               | [] => [String c EmptyString]
               end
      end
  end.

Definition split (sep s : string) : list string := split_from sep 0 s.

(** [sep] occurs somewhere in [s]. *)
Definition occurs (sep s : string) : Prop :=
  exists pre post, s = (pre ++ sep ++ post)%string.

End PyStr.

(** ** Python results, dictionaries and effects *)

Module Py.

Inductive exn : Type :=
| AttributeError (msg : string)
| UnboundLocalError (name : string)
| KeyError (key : string)
| TypeError (msg : string)
| JSONDecodeError
| ServiceError (msg : string).

Inductive result (A : Type) : Type :=
| Return (a : A)
| Raise (e : exn).
Arguments Return {A} a.
Arguments Raise {A} e.

(** A [dict] with string keys: an association list in insertion order, as
    Python iterates it.  A key occurs at most once in a dictionary built
    with [dict_set]. *)
Definition dict (V : Type) : Type := list (string * V).

Section Dict.
Context {V : Type}.

Fixpoint dict_lookup (k : string) (d : dict V) : option V :=
  match d with
  | [] => None
  | (k', v) :: d' => if String.eqb k k' then Some v else dict_lookup k d'
  end.

(** [d.get(k, default)] *)
Definition dict_get (k : string) (default : V) (d : dict V) : V :=
  match dict_lookup k d with
  | Some v => v
  | None => default
  end.

(** [d[k] = v]: an existing key keeps its position and takes the new
    value, a new key goes last. *)
Fixpoint dict_set (k : string) (v : V) (d : dict V) : dict V :=
  match d with
  | [] => [(k, v)]
  | (k', v') :: d' =>
      if String.eqb k k' then (k, v) :: d' else (k', v') :: dict_set k v d'
  end.

Definition dict_keys (d : dict V) : list string := map fst d.
Definition dict_values (d : dict V) : list V := map snd d.
End Dict.

(** A computation that calls external services: it threads the state of
    the world and either returns or raises. *)
Definition M (world A : Type) : Type := world -> result A * world.

Definition ret {world A : Type} (a : A) : M world A := fun w => (Return a, w).

Definition raise {world A : Type} (e : exn) : M world A :=
  fun w => (Raise e, w).

Definition bind {world A B : Type} (m : M world A) (k : A -> M world B)
  : M world B :=
  fun w =>
    match m w with
    | (Return a, w') => k a w'
    | (Raise e, w') => (Raise e, w')
    end.

(** [lift r]: a computation that does not touch the world. *)
Definition lift {world A : Type} (r : result A) : M world A := fun w => (r, w).

End Py.

Declare Scope py_scope.
Delimit Scope py_scope with py.
Notation "x <- m ;; k" := (Py.bind m (fun x => k))
  (at level 61, m at next level, right associativity) : py_scope.
Notation "m ;;; k" := (Py.bind m (fun _ => k))
  (at level 61, right associativity) : py_scope.

(** ** [community/tools/eplaw.py] *)

Module EPLaw.
Import Py.

(** What the code reads of a search hit: [obj.uuid], [obj.properties] (a
    dict), [obj.metadata.rerank_score] and [obj.metadata.get(...)].  A
    rerank score is a finite float, hence a rational. *)
Record Metadata : Type := {
  rerank_score : Q;
  metadata_items : dict string
}.

Record Object : Type := {
  uuid : string;
  properties : dict string;
  metadata : Metadata
}.

(** One returned [{"text": ..., "title": ..., "url": ...}]; [None] is the
    default of the three [get]s. *)
Record Document : Type := {
  text : option string;
  title : option string;
  url : option string
}.

Definition preamble : string := "
Your role is to help user's answer questions about European patent law by generating search engine prompts for the User to search to find legal basis or the appropriate resources from the European Patent Office. You should return only a list of simpler questions. Do not include the original question or answers in your response. Always use the following format:

>>> Search engine prompt
>>> Search engine prompt
".

(** Lines 55-57: [response.text.split(">>>")[1:]], the stripped non-blank
    fragments, and the query appended. *)
Definition generated_questions (response_text query : string) : list string :=
  let fragments := tl (PyStr.split ">>>" response_text) in
  let stripped :=
    map PyStr.strip
        (filter (fun q => negb (String.eqb (PyStr.strip q) EmptyString)) fragments) in
  stripped ++ [query].

(** Line 83: [{obj.uuid: obj for obj in object_full}]. *)
Definition unique_objects (object_full : list Object) : dict Object :=
  fold_left (fun d obj => dict_set (uuid obj) obj d) object_full [].

Definition score (obj : Object) : Q := rerank_score (metadata obj).

(** [sorted(..., key=score, reverse=True)]: a stable sort, so among equal
    scores the earlier element stays first. *)
Fixpoint insert_desc (x : Object) (l : list Object) : list Object :=
  match l with
  | [] => [x]
  | y :: l' =>
      if Qle_bool (score y) (score x) then x :: l else y :: insert_desc x l'
  end.

Fixpoint sorted_desc (l : list Object) : list Object :=
  match l with
  | [] => []
  | x :: l' => insert_desc x (sorted_desc l')
  end.

(** Lines 85-87: the deduplicated pool sorted by descending score, then
    [[:5]]. *)
Definition sorted_objects (object_full : list Object) : list Object :=
  firstn 5 (sorted_desc (dict_values (unique_objects object_full))).

Definition to_document (doc : Object) : Document :=
  {| text := dict_lookup "text" (properties doc);
     title := dict_lookup "title" (metadata_items (metadata doc));
     url := dict_lookup "url" (metadata_items (metadata doc)) |}.

Section Call.
Variable world : Type.

(** The services [call] talks to. *)
Variable connect_to_local : M world unit.
Variable integrations_configure : M world unit.
Variable collections_get : string -> M world unit.
Variable client_close : M world unit.
(** [co.chat(model=..., preamble=..., message=...).text] *)
Variable co_chat : string -> string -> M world string.
(** [co.chat(search_queries_only=True, ...)]: the texts of
    [search_queries]. *)
Variable co_chat_search_queries : string -> M world (list string).
(** [collection.query.hybrid(query, limit, rerank=Rerank(prop, query))]:
    the returned [objects]. *)
Variable query_hybrid : string -> nat -> string -> string -> M world (list Object).

Local Open Scope py_scope.

(** Lines 59-67 *)
Fixpoint search_results (questions : list string) : M world (list string) :=
  match questions with
  | [] => ret []
  | question :: rest =>
      found <- co_chat_search_queries question ;;
      more <- search_results rest ;;
      ret (found ++ more)
  end.

(** Lines 69-81 *)
Fixpoint object_full (query : string) (prompts : list string)
  : M world (list Object) :=
  match prompts with
  | [] => ret []
  | prompt :: rest =>
      objs <- query_hybrid prompt 5 "text" query ;;
      more <- object_full query rest ;;
      ret (objs ++ more)
  end.

(** The objects the returned list is built from. *)
Definition call_objects (parameters : dict string) : M world (list Object) :=
  let query := dict_get "query" EmptyString parameters in
  connect_to_local ;;;
  integrations_configure ;;;
  collections_get "EPO_LEGAL_DOCS" ;;;
  response_text <- co_chat preamble query ;;
  prompts <- search_results (generated_questions response_text query) ;;
  pool <- object_full query prompts ;;
  client_close ;;;
  ret (sorted_objects pool).

Definition call (parameters : dict string) : M world (list Document) :=
  objs <- call_objects parameters ;;
  ret (map to_document objs).
End Call.

(** The fragments as the spec words the parsing: each one trimmed, the
    empty ones discarded, the others kept in their order. *)
Fixpoint trimmed_nonempty (fragments : list string) : list string :=
  match fragments with
  | [] => []
  | fragment :: rest =>
      if String.eqb (PyStr.strip fragment) EmptyString
      then trimmed_nonempty rest
      else PyStr.strip fragment :: trimmed_nonempty rest
  end.

(** Lines 20-22: [is_available]. *)
Definition is_available : bool := true.

End EPLaw.

(** ** [community/tools/patentclaims.py] *)

Module PatentClaims.
Import Py.

(** What [response.json()] yields. *)
#[local] Unset Elimination Schemes.
Inductive json : Type :=
| JNull
| JBool (b : bool)
| JInt (n : Z)
| JFloat (q : Q)
| JString (s : string)
| JArray (items : list json)
| JObject (members : list (string * json)).
#[local] Set Elimination Schemes.

(** A [requests.Response]: its [status_code] and, when the body parses,
    its JSON. *)
Record Response : Type := {
  status_code : Z;
  body : option json
}.

(** [response.json()] *)
Definition response_json (r : Response) : result json :=
  match body r with
  | Some j => Return j
  | None => Raise JSONDecodeError
  end.

(** [v[k]] with a string key *)
Definition getitem (v : json) (k : string) : result json :=
  match v with
  | JObject members =>
      match dict_lookup k members with
      | Some x => Return x
      | None => Raise (KeyError k)
      end
  | _ => Raise (TypeError "indices must be integers or the value is not subscriptable")
  end.

(** [v.get(k, default)]: only a dict has the method. *)
Definition get (v : json) (k : string) (default : json) : result json :=
  match v with
  | JObject members => Return (dict_get k default members)
  | _ => Raise (AttributeError "get")
  end.

Fixpoint chars (s : string) : list json :=
  match s with
  | EmptyString => []
  | String c s' => JString (String c EmptyString) :: chars s'
  end.

(** [for x in v]: the items of a list, the keys of a dict, the characters
    of a string. *)
Definition iterate (v : json) : result (list json) :=
  match v with
  | JArray items => Return items
  | JObject members => Return (map JString (dict_keys members))
  | JString s => Return (chars s)
  | _ => Raise (TypeError "object is not iterable")
  end.

(** [v == 'EN'] *)
Definition is_EN (v : json) : bool :=
  match v with
  | JString s => String.eqb s "EN"
  | _ => false
  end.

Definition rbind {A B : Type} (r : result A) (k : A -> result B) : result B :=
  match r with
  | Return a => k a
  | Raise e => Raise e
  end.

(** Lines 56-59: the chain of [get]s down to the claims. *)
Definition claims_of (data : json) : result json :=
  rbind (get data "ops:world-patent-data" (JObject [])) (fun d1 =>
  rbind (get d1 "ftxt:fulltext-documents" (JObject [])) (fun d2 =>
  rbind (get d2 "ftxt:fulltext-document" (JObject [])) (fun d3 =>
  get d3 "claims" (JArray [])))).

(** Line 62: [[claim for claim in claims if claim.get('@lang') == 'EN']],
    over the items already iterated. *)
Fixpoint english_only (items : list json) : result (list json) :=
  match items with
  | [] => Return []
  | claim :: rest =>
      rbind (get claim "@lang" JNull) (fun lang =>
      rbind (english_only rest) (fun kept =>
      Return (if is_EN lang then claim :: kept else kept)))
  end.

Definition claims_in_english (claims : json) : result (list json) :=
  rbind (iterate claims) english_only.

(** The shape the comprehension expects of a claim, and the entries the
    spec calls English-language: a dict whose [@lang] is ["EN"]. *)
Definition is_object (v : json) : bool :=
  match v with
  | JObject _ => true
  | _ => false
  end.

Definition tagged_EN (claim : json) : bool :=
  match claim with
  | JObject members => is_EN (dict_get "@lang" JNull members)
  | _ => false
  end.

Definition token_url : string := "https://ops.epo.org/3.2/auth/accesstoken".

Definition data_url (query : string) : string :=
  ("https://ops.epo.org/3.2/rest-services/published-data/" ++ "publication"
   ++ "/" ++ "epodoc" ++ "/" ++ query ++ "/claims")%string.

Section Call.
Variable world : Type.

(** [requests.post(url, data=..., auth=...)] and
    [requests.get(url, headers=...)]. *)
Variable requests_post :
  string -> dict string -> option string * option string -> M world Response.
Variable requests_get : string -> dict string -> M world Response.
(** The two environment variables read at import. *)
Variable client_id_key client_secret_key : option string.
(** [str(v)], as an f-string formats a value. *)
Variable str : json -> string.

Local Open Scope py_scope.

(** Lines 25-32: the [try] around the token request.  The handler prints
    the failure, assigns [data], which nothing reads afterwards, and leaves
    [auth_response] at [None]. *)
Definition auth_response : M world (option Response) :=
  fun w =>
    match requests_post token_url [("grant_type", "client_credentials")]
            (client_id_key, client_secret_key) w with
    | (Return r, w') => (Return (Some r), w')
    | (Raise _, w') => (Return None, w')
    end.

Definition headers (access_token : json) : dict string :=
  [("accept", "application/json");
   ("Authorization", ("Bearer " ++ str access_token)%string)].

(** Lines 34-66: the local [claims_in_english] after the two [if]s,
    [None] where no branch taken assigns it.  Reading
    [auth_response.status_code] on [None] raises. *)
Definition fetch_claims (query : string) (auth : option Response)
  : M world (option (list json)) :=
  match auth with
  | None => raise (AttributeError "status_code")
  | Some token_response =>
      if (status_code token_response =? 200)%Z then
        access_token <-
          lift (rbind (response_json token_response)
                      (fun j => getitem j "access_token")) ;;
        response <- requests_get (data_url query) (headers access_token) ;;
        if (status_code response =? 200)%Z then
          data <- lift (response_json response) ;;
          claims <- lift (claims_of data) ;;
          english <- lift (claims_in_english claims) ;;
          ret (Some english)
        else ret None
      else ret None
  end.

(** Line 68: [return [{"text": f"{claims_in_english}"}]]; reading a
    local that was never assigned raises. *)
Definition call (parameters : dict string) : M world (list (dict string)) :=
  let query := dict_get "patent_number" EmptyString parameters in
  auth <- auth_response ;;
  assigned <- fetch_claims query auth ;;
  match assigned with
  | Some english => ret [[("text", str (JArray english))]]
  | None => raise (UnboundLocalError "claims_in_english")
  end.
End Call.

(** Lines 18-20: [is_available]. *)
Definition is_available : bool := true.

End PatentClaims.

(** ** [backend/routers/agent.py] *)

Module AgentRouter.
Import Py.

(** The database model of an agent; [id] is [None] until the persistence
    layer assigns one. *)
Record Agent : Type := {
  id : option string;
  name : string;
  description : option string;
  agent_preamble : option string;
  temperature : option Q;
  user_id : string;
  model : string;
  deployment : string;
  tools : list string
}.

Record AgentToolMetadata : Type := {
  tm_id : option string;
  tm_user_id : string;
  tm_agent_id : option string;
  tool_name : string;
  artifacts : list (dict string)
}.

(** Request payloads. *)
Record CreateAgentToolMetadata : Type := {
  c_tool_name : string;
  c_artifacts : list (dict string)
}.

Record CreateAgent : Type := {
  c_name : string;
  c_description : option string;
  c_preamble : option string;
  c_temperature : option Q;
  c_model : string;
  c_deployment : string;
  c_tools : list string;
  tools_metadata : option (list CreateAgentToolMetadata)
}.

(** The fixed-shape acknowledgments [DeleteAgent()] and
    [DeleteAgentToolMetadata()]. *)
Inductive DeleteAgent : Type := DeleteAgent_empty.
Inductive DeleteAgentToolMetadata : Type := DeleteAgentToolMetadata_empty.

(** A call into the persistence layer returns, or raises an exception [e]
    of which the handlers read [str(e)]. *)
Inductive outcome (A : Type) : Type :=
| Done (a : A)
| Failed (str_e : string).
Arguments Done {A} a.
Arguments Failed {A} str_e.

(** What a handler does: return, raise [HTTPException(status_code, detail)],
    or let an exception of the persistence layer through. *)
Inductive response (A : Type) : Type :=
| Ok (a : A)
| HTTPException (status_code : Z) (detail : string)
| Uncaught (str_e : string).
Arguments Ok {A} a.
Arguments HTTPException {A} status_code detail.
Arguments Uncaught {A} str_e.

Section Handlers.
(** The database behind a [DBSessionDep], and the request headers. *)
Variable Session : Type.
Variable Request : Type.
Variable get_header_user_id : Request -> string.

(** [backend.crud.agent] *)
Variable crud_create_agent : Session -> Agent -> outcome Agent * Session.
Variable crud_get_agents :
  Session -> Z -> Z -> outcome (list Agent) * Session.
Variable crud_get_agent_by_id :
  Session -> string -> outcome (option Agent) * Session.
Variable UpdateAgent : Type.
Variable crud_update_agent :
  Session -> Agent -> UpdateAgent -> outcome Agent * Session.
Variable crud_delete_agent : Session -> string -> outcome unit * Session.

(** [backend.crud.agent_tool_metadata] *)
Variable crud_create_agent_tool_metadata :
  Session -> AgentToolMetadata -> outcome AgentToolMetadata * Session.
Variable crud_get_all_agent_tool_metadata_by_agent_id :
  Session -> string -> outcome (list AgentToolMetadata) * Session.
Variable crud_get_agent_tool_metadata_by_id :
  Session -> string -> outcome (option AgentToolMetadata) * Session.
Variable UpdateAgentToolMetadata : Type.
Variable crud_update_agent_tool_metadata :
  Session -> AgentToolMetadata -> UpdateAgentToolMetadata
  -> outcome AgentToolMetadata * Session.
Variable crud_delete_agent_tool_metadata_by_id :
  Session -> string -> outcome unit * Session.

(** What a handler can change: the database and [request.state]. *)
Record state : Type := {
  session : Session;
  state_agent : option Agent;
  state_agent_tool_metadata : option AgentToolMetadata
}.

Definition with_session (s : Session) (st : state) : state :=
  {| session := s;
     state_agent := state_agent st;
     state_agent_tool_metadata := state_agent_tool_metadata st |}.

Definition set_agent (a : Agent) (st : state) : state :=
  {| session := session st;
     state_agent := Some a;
     state_agent_tool_metadata := state_agent_tool_metadata st |}.

Definition set_agent_tool_metadata (m : AgentToolMetadata) (st : state)
  : state :=
  {| session := session st;
     state_agent := state_agent st;
     state_agent_tool_metadata := Some m |}.

Definition not_found_colon (agent_id : string) : string :=
  ("Agent with ID: " ++ agent_id ++ " not found.")%string.

Definition not_found (agent_id : string) : string :=
  ("Agent with ID " ++ agent_id ++ " not found.")%string.

Definition tool_metadata_not_found (agent_tool_metadata_id : string)
  : string :=
  ("Agent tool metadata with ID " ++ agent_tool_metadata_id
   ++ " not found.")%string.

(** Lines 76-81: the row built for one entry of [agent.tools_metadata]. *)
Definition agent_tool_metadata_data (uid : string) (created_agent : Agent)
    (tool_metadata : CreateAgentToolMetadata) : AgentToolMetadata :=
  {| tm_id := None;
     tm_user_id := uid;
     tm_agent_id := id created_agent;
     tool_name := c_tool_name tool_metadata;
     artifacts := c_artifacts tool_metadata |}.

(** Lines 75-84: the loop over [agent.tools_metadata], inside the [try]. *)
Fixpoint create_tools_metadata (uid : string) (created_agent : Agent)
    (metadata : list CreateAgentToolMetadata) (s : Session)
  : outcome unit * Session :=
  match metadata with
  | [] => (Done tt, s)
  | tool_metadata :: rest =>
      match crud_create_agent_tool_metadata s
              (agent_tool_metadata_data uid created_agent tool_metadata) with
      | (Done _, s') => create_tools_metadata uid created_agent rest s'
      | (Failed e, s') => (Failed e, s')
      end
  end.

Definition agent_data (agent : CreateAgent) (request : Request) : Agent :=
  {| id := None;
     name := c_name agent;
     description := c_description agent;
     agent_preamble := c_preamble agent;
     temperature := c_temperature agent;
     user_id := get_header_user_id request;
     model := c_model agent;
     deployment := c_deployment agent;
     tools := c_tools agent |}.

(** Lines 43-87 *)
Definition create_agent (agent : CreateAgent) (request : Request)
    (st : state) : response Agent * state :=
  let uid := get_header_user_id request in
  let st := set_agent (agent_data agent request) st in
  match crud_create_agent (session st) (agent_data agent request) with
  | (Failed e, s1) => (HTTPException 500 e, with_session s1 st)
  | (Done created_agent, s1) =>
      let metadata :=
        match tools_metadata agent with
        | Some l => l
        | None => []
        end in
      match create_tools_metadata uid created_agent metadata s1 with
      | (Failed e, s2) => (HTTPException 500 e, with_session s2 st)
      | (Done _, s2) => (Ok created_agent, with_session s2 st)
      end
  end.

(** Lines 91-109 *)
Definition list_agents (offset limit : Z) (st : state)
  : response (list Agent) * state :=
  match crud_get_agents (session st) offset limit with
  | (Done l, s1) => (Ok l, with_session s1 st)
  | (Failed e, s1) => (HTTPException 500 e, with_session s1 st)
  end.

(** Lines 113-139 *)
Definition get_agent_by_id (agent_id : string) (st : state)
  : response Agent * state :=
  match crud_get_agent_by_id (session st) agent_id with
  | (Failed e, s1) => (HTTPException 500 e, with_session s1 st)
  | (Done None, s1) =>
      (HTTPException 400 (not_found_colon agent_id), with_session s1 st)
  | (Done (Some agent), s1) => (Ok agent, set_agent agent (with_session s1 st))
  end.

(** Lines 150-184; the lookup is outside the [try]. *)
Definition update_agent (agent_id : string) (new_agent : UpdateAgent)
    (st : state) : response Agent * state :=
  match crud_get_agent_by_id (session st) agent_id with
  | (Failed e, s1) => (Uncaught e, with_session s1 st)
  | (Done None, s1) =>
      (HTTPException 400 (not_found agent_id), with_session s1 st)
  | (Done (Some agent), s1) =>
      match crud_update_agent s1 agent new_agent with
      | (Done agent', s2) => (Ok agent', set_agent agent' (with_session s2 st))
      | (Failed e, s2) => (HTTPException 500 e, with_session s2 st)
      end
  end.

(** Lines 188-219 *)
Definition delete_agent (agent_id : string) (st : state)
  : response DeleteAgent * state :=
  match crud_get_agent_by_id (session st) agent_id with
  | (Failed e, s1) => (Uncaught e, with_session s1 st)
  | (Done None, s1) =>
      (HTTPException 400 (not_found agent_id), with_session s1 st)
  | (Done (Some agent), s1) =>
      let st1 := set_agent agent (with_session s1 st) in
      match crud_delete_agent s1 agent_id with
      | (Done _, s2) => (Ok DeleteAgent_empty, with_session s2 st1)
      | (Failed e, s2) => (HTTPException 500 e, with_session s2 st1)
      end
  end.

(** Lines 226-248 *)
Definition list_agent_tool_metadata (agent_id : string) (st : state)
  : response (list AgentToolMetadata) * state :=
  match crud_get_all_agent_tool_metadata_by_agent_id (session st) agent_id with
  | (Done l, s1) => (Ok l, with_session s1 st)
  | (Failed e, s1) => (HTTPException 500 e, with_session s1 st)
  end.

(** Lines 255-296 *)
Definition create_agent_tool_metadata (agent_id : string)
    (agent_tool_metadata : CreateAgentToolMetadata) (request : Request)
    (st : state) : response AgentToolMetadata * state :=
  let agent_tool_metadata_data :=
    {| tm_id := None;
       tm_user_id := get_header_user_id request;
       tm_agent_id := Some agent_id;
       tool_name := c_tool_name agent_tool_metadata;
       artifacts := c_artifacts agent_tool_metadata |} in
  let st := set_agent_tool_metadata agent_tool_metadata_data st in
  match crud_create_agent_tool_metadata (session st) agent_tool_metadata_data with
  | (Done created, s1) => (Ok created, with_session s1 st)
  | (Failed e, s1) => (HTTPException 500 e, with_session s1 st)
  end.

(** Lines 300-341; the handler returns the record it looked up. *)
Definition update_agent_tool_metadata (agent_id agent_tool_metadata_id : string)
    (new_agent_tool_metadata : UpdateAgentToolMetadata) (st : state)
  : response AgentToolMetadata * state :=
  match crud_get_agent_tool_metadata_by_id (session st) agent_tool_metadata_id with
  | (Failed e, s1) => (Uncaught e, with_session s1 st)
  | (Done None, s1) =>
      (HTTPException 400 (tool_metadata_not_found agent_tool_metadata_id),
       with_session s1 st)
  | (Done (Some agent_tool_metadata), s1) =>
      match crud_update_agent_tool_metadata s1 agent_tool_metadata
              new_agent_tool_metadata with
      | (Done _, s2) =>
          (Ok agent_tool_metadata,
           set_agent_tool_metadata agent_tool_metadata (with_session s2 st))
      | (Failed e, s2) => (HTTPException 500 e, with_session s2 st)
      end
  end.

(** Lines 345-381 *)
Definition delete_agent_tool_metadata (agent_id agent_tool_metadata_id : string)
    (st : state) : response DeleteAgentToolMetadata * state :=
  match crud_get_agent_tool_metadata_by_id (session st) agent_tool_metadata_id with
  | (Failed e, s1) => (Uncaught e, with_session s1 st)
  | (Done None, s1) =>
      (HTTPException 400 (tool_metadata_not_found agent_tool_metadata_id),
       with_session s1 st)
  | (Done (Some agent_tool_metadata), s1) =>
      let st1 :=
        set_agent_tool_metadata agent_tool_metadata (with_session s1 st) in
      match crud_delete_agent_tool_metadata_by_id s1 agent_tool_metadata_id with
      | (Done _, s2) => (Ok DeleteAgentToolMetadata_empty, with_session s2 st1)
      | (Failed e, s2) => (HTTPException 500 e, with_session s2 st1)
      end
  end.

(** The agent [a] is stored under [agent_id] in [s]: a lookup returns it. *)
Definition persisted (s : Session) (agent_id : string) (a : Agent) : Prop :=
  fst (crud_get_agent_by_id s agent_id) = Done (Some a).
End Handlers.

(** A raised response is a client error (4xx) whose detail mentions [ident]. *)
Definition client_error_mentioning {A : Type} (ident : string)
    (r : response A) : Prop :=
  exists code detail,
    r = HTTPException code detail
    /\ (400 <= code < 500)%Z
    /\ PyStr.occurs ident detail.

Definition server_error {A : Type} (r : response A) : Prop :=
  exists code detail, r = HTTPException code detail /\ (500 <= code < 600)%Z.

(** The answer to a missing record that the spec asks for: a client error
    naming the identifier, and not a server error. *)
Definition not_found_response {A : Type} (ident : string) (r : response A)
  : Prop :=
  client_error_mentioning ident r /\ ~ server_error r.

(** Every [HTTPException] among the responses carries one of [codes]. *)
Definition status_in {A : Type} (codes : list Z) (r : response A) : Prop :=
  match r with
  | HTTPException code _ => In code codes
  | _ => True
  end.

End AgentRouter.

(** ** Concrete services

    Small deterministic stand-ins for the external services, on which the
    embedded code runs by computation. *)

Module Fixtures.
Import Py.

(** *** For [EPLaw.call]: a vector store of four documents. *)

Definition hit (u : string) (s : Q) (body : string) : EPLaw.Object :=
  {| EPLaw.uuid := u;
     EPLaw.properties := [("text", body)];
     EPLaw.metadata :=
       {| EPLaw.rerank_score := s;
          EPLaw.metadata_items := [("title", u); ("url", ("epo://" ++ u)%string)] |} |}.

Definition art54_low : EPLaw.Object := hit "art54" (1 # 4) "Novelty".
Definition art54_high : EPLaw.Object := hit "art54" (3 # 4) "Novelty".
Definition art56 : EPLaw.Object := hit "art56" (1 # 2) "Inventive step".
Definition rule42 : EPLaw.Object := hit "rule42" (1 # 2) "Description".

Definition unit_step : M unit unit := ret tt.

Definition chat_reply : string -> string -> M unit string :=
  fun _ _ => ret "Here you go:
>>> What is novelty?
>>>   
>>> What is prior art? ".

Definition chat_queries : string -> M unit (list string) :=
  fun question => ret [question].

(** Every search returns the same hits; [art54] comes back with a fresh
    score on the last search. *)
Definition hybrid : string -> nat -> string -> string -> M unit (list EPLaw.Object) :=
  fun prompt _ _ query =>
    if String.eqb prompt query
    then ret [art54_high; rule42]
    else ret [art54_low; art56].

Definition query_parameters : dict string := [("query", "prior art novelty")].

Definition expected_objects : list EPLaw.Object := [art54_high; art56; rule42].

Definition expected_documents : list EPLaw.Document :=
  map EPLaw.to_document expected_objects.

Definition eplaw_call (parameters : dict string) : M unit (list EPLaw.Document) :=
  EPLaw.call unit unit_step unit_step (fun _ => unit_step) unit_step
    chat_reply chat_queries hybrid parameters.

(** *** For [PatentClaims.call]: fixed HTTP answers. *)

Import PatentClaims.

Definition post_answers (r : result Response)
  : string -> dict string -> option string * option string -> M unit Response :=
  fun _ _ _ w => (r, w).

Definition get_answers (r : result Response)
  : string -> dict string -> M unit Response :=
  fun _ _ w => (r, w).

(** A rendering of the values the examples use (no escapes, integers and
    floats not told apart). *)
Fixpoint repr (j : json) : string :=
  match j with
  | JNull => "None"
  | JBool true => "True"
  | JBool false => "False"
  | JInt _ => "0"
  | JFloat _ => "0.0"
  | JString s => ("'" ++ s ++ "'")%string
  | JArray items => ("[" ++ String.concat ", " (map repr items) ++ "]")%string
  | JObject members =>
      ("{" ++ String.concat ", "
                (map (fun kv => ("'" ++ fst kv ++ "': " ++ repr (snd kv))%string)
                     members) ++ "}")%string
  end.

Definition str (j : json) : string :=
  match j with
  | JString s => s
  | _ => repr j
  end.

Definition patent_call (token : result Response) (fetched : result Response)
    (parameters : dict string) : M unit (list (dict string)) :=
  PatentClaims.call unit (post_answers token) (get_answers fetched)
    (Some "id") (Some "secret") str parameters.

Definition token_ok : Response :=
  {| status_code := 200;
     body := Some (JObject [("access_token", JString "t0k3n")]) |}.

Definition token_denied : Response :=
  {| status_code := 401; body := Some (JObject [("error", JString "invalid_client")]) |}.

Definition not_found : Response :=
  {| status_code := 404; body := None |}.

Definition fulltext (claims : json) : Response :=
  {| status_code := 200;
     body := Some (JObject [("ops:world-patent-data",
               JObject [("ftxt:fulltext-documents",
                 JObject [("ftxt:fulltext-document",
                   JObject [("claims", claims)])])])]) |}.

Definition patent_parameters : dict string := [("patent_number", "EP1000000")].

Definition claim_en : json :=
  JObject [("@lang", JString "EN"); ("claim", JString "1. A device.")].
Definition claim_de : json :=
  JObject [("@lang", JString "DE"); ("claim", JString "1. Vorrichtung.")].

(** *** For the agent router: an in-memory persistence layer. *)

Import AgentRouter.

Record Store : Type := {
  agents : list Agent;
  metadata_rows : list AgentToolMetadata;
  next_id : nat
}.

Definition empty_store : Store :=
  {| agents := []; metadata_rows := []; next_id := 0 |}.

Definition fresh_id (s : Store) : string :=
  NilEmpty.string_of_uint (Nat.to_uint (next_id s)).

Definition opt_eqb (a : option string) (b : string) : bool :=
  match a with
  | Some x => String.eqb x b
  | None => false
  end.

Definition store_create_agent (s : Store) (a : Agent) : outcome Agent * Store :=
  let row :=
    {| id := Some (fresh_id s); name := name a; description := description a;
       agent_preamble := agent_preamble a; temperature := temperature a;
       user_id := user_id a; model := model a; deployment := deployment a;
       tools := tools a |} in
  (Done row,
   {| agents := agents s ++ [row]; metadata_rows := metadata_rows s;
      next_id := S (next_id s) |}).

Definition store_get_agents (s : Store) (offset limit : Z)
  : outcome (list Agent) * Store :=
  (Done (firstn (Z.to_nat limit) (skipn (Z.to_nat offset) (agents s))), s).

Definition store_get_agent_by_id (s : Store) (agent_id : string)
  : outcome (option Agent) * Store :=
  (Done (List.find (fun a => opt_eqb (id a) agent_id) (agents s)), s).

Definition store_update_agent (s : Store) (a : Agent) (new_name : string)
  : outcome Agent * Store :=
  let row :=
    {| id := id a; name := new_name; description := description a;
       agent_preamble := agent_preamble a; temperature := temperature a;
       user_id := user_id a; model := model a; deployment := deployment a;
       tools := tools a |} in
  (Done row,
   {| agents :=
        map (fun b => match id b with
                      | Some i => if opt_eqb (id a) i then row else b
                      | None => b
                      end) (agents s);
      metadata_rows := metadata_rows s; next_id := next_id s |}).

Definition store_delete_agent (s : Store) (agent_id : string)
  : outcome unit * Store :=
  (Done tt,
   {| agents := filter (fun a => negb (opt_eqb (id a) agent_id)) (agents s);
      metadata_rows := metadata_rows s; next_id := next_id s |}).

(** The insert of a tool-metadata row refuses an empty tool name. *)
Definition store_create_agent_tool_metadata (s : Store) (m : AgentToolMetadata)
  : outcome AgentToolMetadata * Store :=
  if String.eqb (tool_name m) EmptyString
  then (Failed "tool_name must not be empty", s)
  else
    let row :=
      {| tm_id := Some (fresh_id s); tm_user_id := tm_user_id m;
         tm_agent_id := tm_agent_id m; tool_name := tool_name m;
         artifacts := artifacts m |} in
    (Done row,
     {| agents := agents s; metadata_rows := metadata_rows s ++ [row];
        next_id := S (next_id s) |}).

Definition store_get_all_agent_tool_metadata_by_agent_id (s : Store)
    (agent_id : string) : outcome (list AgentToolMetadata) * Store :=
  (Done (filter (fun m => opt_eqb (tm_agent_id m) agent_id) (metadata_rows s)), s).

Definition store_get_agent_tool_metadata_by_id (s : Store) (mid : string)
  : outcome (option AgentToolMetadata) * Store :=
  (Done (List.find (fun m => opt_eqb (tm_id m) mid) (metadata_rows s)), s).

Definition store_update_agent_tool_metadata (s : Store) (m : AgentToolMetadata)
    (new_tool_name : string) : outcome AgentToolMetadata * Store :=
  (Done m, s).

Definition store_delete_agent_tool_metadata_by_id (s : Store) (mid : string)
  : outcome unit * Store :=
  (Done tt,
   {| agents := agents s;
      metadata_rows := filter (fun m => negb (opt_eqb (tm_id m) mid)) (metadata_rows s);
      next_id := next_id s |}).

Definition fresh_state : state Store :=
  {| session := empty_store; state_agent := None;
     state_agent_tool_metadata := None |}.

(** A payload whose second tool-metadata row is refused. *)
Definition payload : CreateAgent :=
  {| c_name := "helper"; c_description := None; c_preamble := None;
     c_temperature := Some (3 # 10); c_model := "command-r";
     c_deployment := "cohere"; c_tools := ["search"];
     tools_metadata :=
       Some [ {| c_tool_name := "search"; c_artifacts := [] |};
              {| c_tool_name := EmptyString; c_artifacts := [] |};
              {| c_tool_name := "files"; c_artifacts := [] |} ] |}.

Definition header_user : unit -> string := fun _ => "user-1".

(** The handlers over the in-memory store; an update payload is the new
    name. *)
Definition mem_create_agent :=
  create_agent Store unit header_user store_create_agent
    store_create_agent_tool_metadata.
Definition mem_get_agent_by_id := get_agent_by_id Store store_get_agent_by_id.
Definition mem_update_agent :=
  update_agent Store store_get_agent_by_id string store_update_agent.
Definition mem_delete_agent :=
  delete_agent Store store_get_agent_by_id store_delete_agent.
Definition mem_update_agent_tool_metadata :=
  update_agent_tool_metadata Store store_get_agent_tool_metadata_by_id string
    store_update_agent_tool_metadata.
Definition mem_delete_agent_tool_metadata :=
  delete_agent_tool_metadata Store store_get_agent_tool_metadata_by_id
    store_delete_agent_tool_metadata_by_id.

(** The rows that creating [payload] in the empty store inserts before the
    refused one. *)
Definition created_row : Agent :=
  {| id := Some "0"; name := "helper"; description := None;
     agent_preamble := None; temperature := Some (3 # 10);
     user_id := "user-1"; model := "command-r"; deployment := "cohere";
     tools := ["search"] |}.

Definition store_after_agent : Store :=
  {| agents := [created_row]; metadata_rows := []; next_id := 1 |}.

Definition store_after_first_tool : Store :=
  {| agents := [created_row];
     metadata_rows :=
       [ {| tm_id := Some "1"; tm_user_id := "user-1"; tm_agent_id := Some "0";
            tool_name := "search"; artifacts := [] |} ];
     next_id := 2 |}.


(** *** Services that are down or have nothing to say. *)

Definition chat_queries_none : string -> M unit (list string) :=
  fun _ => ret [].

Definition hybrid_down
  : string -> nat -> string -> string -> M unit (list EPLaw.Object) :=
  fun _ _ _ _ => raise (ServiceError "weaviate is down").

Definition get_raises : string -> dict string -> M unit Response :=
  fun _ _ => raise (ServiceError "read timed out").

Definition get_other : string -> dict string -> M unit Response :=
  fun _ _ => ret (fulltext (JArray [claim_en])).

Definition token_without_key : Response :=
  {| status_code := 200; body := Some (JObject [("token_type", JString "bearer")]) |}.

Definition empty_document : Response :=
  {| status_code := 200; body := Some (JObject []) |}.

Definition lookup_down {A : Type} : Store -> string -> outcome (option A) * Store :=
  fun s _ => (Failed "connection lost", s).

Definition update_down : Store -> Agent -> string -> outcome Agent * Store :=
  fun s _ _ => (Failed "row is locked", s).

Definition delete_down : Store -> string -> outcome unit * Store :=
  fun s _ => (Failed "row is locked", s).

Definition create_agent_down : Store -> Agent -> outcome Agent * Store :=
  fun s _ => (Failed "disk full", s).

Definition state_with_agent : state Store :=
  {| session := store_after_agent; state_agent := None;
     state_agent_tool_metadata := None |}.

Definition payload_without_metadata : CreateAgent :=
  {| c_name := "helper"; c_description := None; c_preamble := None;
     c_temperature := Some (3 # 10); c_model := "command-r";
     c_deployment := "cohere"; c_tools := ["search"];
     tools_metadata := Some [] |}.
End Fixtures.

(** * Properties *)

(** ** Strings *)

Module PyStrFacts.
Import PyStr.

Lemma prefix_inv (p s : string) :
  prefix p s = true -> exists post, s = (p ++ post)%string.
Proof.
  revert s; induction p as [|a p IH]; intros s H.
  - exists s; reflexivity.
  - destruct s as [|b s]; simpl in H; [discriminate|].
    destruct (ascii_dec a b) as [->|]; [|discriminate].
    destruct (IH s H) as [post ->]. exists post; reflexivity.
Qed.

Lemma prefix_append (p post : string) : prefix p (p ++ post) = true.
Proof.
  induction p as [|a p IH]; simpl.
  - destruct post; reflexivity.
  - destruct (ascii_dec a a); [assumption|congruence].
Qed.

Lemma append_assoc (a b c : string) :
  ((a ++ b) ++ c = a ++ (b ++ c))%string.
Proof. induction a as [|x a IH]; simpl; [reflexivity|now rewrite IH]. Qed.

Lemma take_drop (n : nat) (s : string) : (take n s ++ drop n s)%string = s.
Proof.
  revert s; induction n as [|n IH]; intros [|c s]; simpl; try reflexivity.
  now rewrite IH.
Qed.

Lemma drop_drop (a b : nat) (s : string) : drop a (drop b s) = drop (b + a) s.
Proof.
  revert s; induction b as [|b IH]; intros s; simpl.
  - reflexivity.
  - destruct s as [|c s]; [destruct a; reflexivity|apply IH].
Qed.

Lemma drop_length_append (p s : string) : drop (String.length p) (p ++ s) = s.
Proof. induction p as [|c p IH]; simpl; [reflexivity|assumption]. Qed.

(** [find] returns the position of an occurrence. *)
Lemma find_some_prefix (sep s : string) (i : nat) :
  find sep s = Some i -> prefix sep (drop i s) = true.
Proof.
  revert i; induction s as [|c s IH]; intros i H; simpl in H.
  - destruct sep; [|discriminate]. injection H as <-. reflexivity.
  - destruct sep as [|a sep]; [injection H as <-; reflexivity|].
    destruct (ascii_dec a c) as [->|].
    + destruct (prefix sep s) eqn:P.
      * injection H as <-. simpl. destruct (ascii_dec c c); congruence.
      * destruct (find (String c sep) s) as [j|] eqn:F; [|discriminate].
        injection H as <-. simpl. apply IH. reflexivity.
    + destruct (find (String a sep) s) as [j|] eqn:F; [|discriminate].
      injection H as <-. simpl. apply IH. reflexivity.
Qed.

Lemma find_some_occurs (sep s : string) (i : nat) :
  find sep s = Some i -> occurs sep s.
Proof.
  intros H. apply find_some_prefix, prefix_inv in H. destruct H as [post H].
  exists (take i s), post. rewrite <- H. symmetry. apply take_drop.
Qed.

Lemma find_unfold (sep s : string) :
  find sep s =
  if prefix sep s then Some 0
  else match s with
       | EmptyString => None
       | String _ s' => option_map S (find sep s')
       end.
Proof. destruct s; reflexivity. Qed.

Lemma find_append (pre sep post : string) :
  find sep (pre ++ sep ++ post) <> None.
Proof.
  induction pre as [|c pre IH].
  - rewrite find_unfold. simpl append. rewrite prefix_append. discriminate.
  - rewrite find_unfold. simpl append.
    destruct (prefix sep (String c (pre ++ sep ++ post))); [discriminate|].
    destruct (find sep (pre ++ sep ++ post)); [discriminate|congruence].
Qed.

(** [find] fails exactly on the strings in which [sep] does not occur. *)
Lemma find_none_iff (sep s : string) : find sep s = None <-> ~ occurs sep s.
Proof.
  split.
  - intros H [pre [post ->]]. now apply (find_append pre sep post).
  - intros H. destruct (find sep s) as [i|] eqn:F; [|reflexivity].
    exfalso. apply H. now apply find_some_occurs with i.
Qed.

Lemma split_from_skip (sep : string) (k : nat) (s : string) :
  split_from sep k s = split_from sep 0 (drop k s).
Proof.
  revert s; induction k as [|k IH]; intros s.
  - reflexivity.
  - destruct s as [|c s]; [reflexivity|]. simpl drop. rewrite <- IH. reflexivity.
Qed.

Lemma find_cons (sep : string) (c : ascii) (s : string) :
  find sep (String c s) =
  if prefix sep (String c s) then Some 0 else option_map S (find sep s).
Proof. reflexivity. Qed.

Lemma split_cons (sep : string) (c : ascii) (s : string) :
  split sep (String c s) =
  if prefix sep (String c s)
  then EmptyString :: split_from sep (String.length sep - 1) s
  else match split sep s with
       | h :: t => String c h :: t
       | [] => [String c EmptyString]
       end.
Proof. reflexivity. Qed.

(** Without an occurrence of the separator, [split] returns the string
    whole. *)
Lemma split_find_none (sep s : string) :
  find sep s = None -> split sep s = [s].
Proof.
  induction s as [|c s IH]; intros H.
  - reflexivity.
  - rewrite find_cons in H. rewrite split_cons.
    destruct (prefix sep (String c s)); [discriminate|].
    destruct (find sep s); [discriminate|]. now rewrite IH.
Qed.

(** With a first occurrence at [i], [split] cuts off the [i] characters
    before it and goes on behind the separator. *)
Lemma split_find_some (sep s : string) (i : nat) :
  sep <> EmptyString ->
  find sep s = Some i ->
  split sep s = take i s :: split sep (drop (i + String.length sep) s).
Proof.
  intros Hsep. revert i; induction s as [|c s IH]; intros i H.
  - destruct sep; [congruence|discriminate].
  - rewrite find_cons in H. rewrite split_cons.
    destruct (prefix sep (String c s)).
    + injection H as <-. rewrite split_from_skip.
      destruct sep as [|a sep]; [congruence|].
      simpl. rewrite Nat.sub_0_r. reflexivity.
    + destruct (find sep s) as [j|]; [|discriminate].
      injection H as <-. rewrite (IH j eq_refl). reflexivity.
Qed.

End PyStrFacts.

(** ** Dictionaries *)

Module DictFacts.
Import Py.

Section Facts.
Context {V : Type}.
Implicit Types (k : string) (v : V) (d : dict V).

Lemma dict_lookup_set_same k v d : dict_lookup k (dict_set k v d) = Some v.
Proof.
  induction d as [|[k' v'] d IH]; simpl.
  - now rewrite String.eqb_refl.
  - destruct (String.eqb k k') eqn:E; simpl.
    + now rewrite String.eqb_refl.
    + now rewrite E.
Qed.

Lemma dict_lookup_set_other k k0 v d :
  k0 <> k -> dict_lookup k0 (dict_set k v d) = dict_lookup k0 d.
Proof.
  intros Hne. induction d as [|[k' v'] d IH]; simpl.
  - apply String.eqb_neq in Hne. now rewrite Hne.
  - destruct (String.eqb k k') eqn:E; simpl.
    + apply String.eqb_eq in E; subst k'.
      apply String.eqb_neq in Hne. now rewrite Hne.
    + now rewrite IH.
Qed.

Lemma dict_keys_set k k0 v d :
  In k0 (dict_keys (dict_set k v d)) <-> k0 = k \/ In k0 (dict_keys d).
Proof.
  induction d as [|[k' v'] d IH]; simpl.
  - intuition.
  - destruct (String.eqb k k') eqn:E; simpl.
    + apply String.eqb_eq in E; subst k'. intuition.
    + rewrite IH. intuition.
Qed.

Lemma dict_set_NoDup k v d :
  NoDup (dict_keys d) -> NoDup (dict_keys (dict_set k v d)).
Proof.
  induction d as [|[k' v'] d IH]; simpl; intros H.
  - constructor; [intros []|constructor].
  - inversion H as [|? ? Hnotin Hd]; subst.
    destruct (String.eqb k k') eqn:E; simpl.
    + apply String.eqb_eq in E; subst k'. now constructor.
    + constructor; [|now apply IH].
      intros Hin. apply dict_keys_set in Hin. destruct Hin as [->|Hin].
      * now rewrite String.eqb_refl in E.
      * now apply Hnotin.
Qed.

Lemma dict_set_length k v d : List.length (dict_set k v d) <= S (List.length d).
Proof.
  induction d as [|[k' v'] d IH]; simpl; [lia|].
  destruct (String.eqb k k'); simpl; lia.
Qed.

(** In a dictionary without repeated keys, an entry is what a lookup of
    its key finds. *)
Lemma dict_lookup_In k v d :
  NoDup (dict_keys d) -> In (k, v) d -> dict_lookup k d = Some v.
Proof.
  induction d as [|[k' v'] d IH]; simpl; intros Hnd Hin; [contradiction|].
  inversion Hnd as [|? ? Hnotin Hd]; subst.
  destruct Hin as [Heq|Hin].
  - injection Heq as -> ->. now rewrite String.eqb_refl.
  - destruct (String.eqb k k') eqn:E.
    + apply String.eqb_eq in E; subst k'. exfalso. apply Hnotin.
      change k with (fst (k, v)). now apply in_map.
    + now apply IH.
Qed.

Lemma dict_lookup_Some_In k v d : dict_lookup k d = Some v -> In (k, v) d.
Proof.
  induction d as [|[k' v'] d IH]; simpl; [discriminate|].
  destruct (String.eqb k k') eqn:E.
  - apply String.eqb_eq in E; subst k'. intros [= ->]. now left.
  - intros H. right. now apply IH.
Qed.
End Facts.

End DictFacts.

(** ** The pipeline of [EPLaw.call] *)

Module EPLawFacts.
Import Py PyStr PyStrFacts DictFacts EPLaw.

(** *** Deduplication *)

Lemma dict_set_keyed (obj : Object) (d : dict Object) :
  map uuid (dict_values d) = dict_keys d ->
  map uuid (dict_values (dict_set (uuid obj) obj d))
  = dict_keys (dict_set (uuid obj) obj d).
Proof.
  induction d as [|[k v] d IH]; simpl; intros H.
  - reflexivity.
  - injection H as Hk Hd.
    destruct (String.eqb (uuid obj) k) eqn:E; simpl.
    + unfold dict_values, dict_keys in *. now rewrite Hd.
    + unfold dict_values, dict_keys in *. rewrite Hk. f_equal. now apply IH.
Qed.

Lemma fold_dict_set_inv (pool : list Object) (d : dict Object) :
  NoDup (dict_keys d) ->
  map uuid (dict_values d) = dict_keys d ->
  let d' := fold_left (fun d obj => dict_set (uuid obj) obj d) pool d in
  NoDup (dict_keys d') /\ map uuid (dict_values d') = dict_keys d'.
Proof.
  revert d; induction pool as [|obj pool IH]; simpl; intros d Hnd Hk.
  - now split.
  - apply IH; [now apply dict_set_NoDup|now apply dict_set_keyed].
Qed.

Lemma fold_dict_set_length (pool : list Object) (d : dict Object) :
  List.length (fold_left (fun d obj => dict_set (uuid obj) obj d) pool d)
  <= List.length d + List.length pool.
Proof.
  revert d; induction pool as [|obj pool IH]; simpl; intros d; [lia|].
  specialize (IH (dict_set (uuid obj) obj d)).
  pose proof (dict_set_length (uuid obj) obj d). lia.
Qed.

Lemma fold_dict_set_lookup_other (pool : list Object) (d : dict Object)
    (k : string) :
  Forall (fun o => uuid o <> k) pool ->
  dict_lookup k (fold_left (fun d obj => dict_set (uuid obj) obj d) pool d)
  = dict_lookup k d.
Proof.
  revert d; induction pool as [|obj pool IH]; simpl; intros d H; [reflexivity|].
  inversion H as [|? ? Hne Hrest]; subst.
  rewrite IH by assumption. apply dict_lookup_set_other. congruence.
Qed.

Lemma unique_objects_NoDup (pool : list Object) :
  NoDup (dict_keys (unique_objects pool))
  /\ map uuid (dict_values (unique_objects pool)) = dict_keys (unique_objects pool).
Proof. apply (fold_dict_set_inv pool []); [constructor|reflexivity]. Qed.

Lemma unique_objects_length (pool : list Object) :
  List.length (dict_values (unique_objects pool)) <= List.length pool.
Proof.
  unfold dict_values. rewrite length_map.
  apply (fold_dict_set_length pool []).
Qed.

Lemma unique_objects_last (before after : list Object) (obj : Object) :
  Forall (fun o => uuid o <> uuid obj) after ->
  dict_lookup (uuid obj) (unique_objects (before ++ obj :: after)) = Some obj.
Proof.
  intros H. unfold unique_objects. rewrite fold_left_app. simpl.
  rewrite fold_dict_set_lookup_other by assumption.
  apply dict_lookup_set_same.
Qed.

(** *** Sorting *)

Lemma insert_desc_perm (x : Object) (l : list Object) :
  Permutation (x :: l) (insert_desc x l).
Proof.
  induction l as [|y l IH]; simpl; [reflexivity|].
  destruct (Qle_bool (score y) (score x)); [reflexivity|].
  rewrite perm_swap. now apply perm_skip.
Qed.

Lemma sorted_desc_perm (l : list Object) : Permutation l (sorted_desc l).
Proof.
  induction l as [|x l IH]; simpl; [reflexivity|].
  rewrite <- insert_desc_perm. now apply perm_skip.
Qed.

Lemma insert_desc_sorted (x : Object) (l : list Object) :
  StronglySorted (fun a b => (score b <= score a)%Q) l ->
  StronglySorted (fun a b => (score b <= score a)%Q) (insert_desc x l).
Proof.
  induction l as [|y l IH]; simpl; intros H.
  - constructor; constructor.
  - inversion H as [|? ? Hl Hy]; subst.
    destruct (Qle_bool (score y) (score x)) eqn:E.
    + apply Qle_bool_iff in E. constructor; [assumption|].
      constructor; [assumption|].
      rewrite Forall_forall in Hy |- *. intros z Hz.
      apply Qle_trans with (score y); [now apply Hy|assumption].
    + assert (Hxy : (score x <= score y)%Q).
      { apply Qlt_le_weak, Qnot_le_lt. intros Hle.
        apply Qle_bool_iff in Hle. congruence. }
      constructor; [now apply IH|].
      rewrite Forall_forall in Hy |- *. intros z Hz.
      apply (Permutation_in z (Permutation_sym (insert_desc_perm x l))) in Hz.
      destruct Hz as [<-|Hz]; [assumption|now apply Hy].
Qed.

(** The sort is stable: the objects of one score keep their order. *)
Lemma insert_desc_stable (q : Q) (x : Object) (l : list Object) :
  filter (fun o => Qeq_bool (score o) q) (insert_desc x l)
  = filter (fun o => Qeq_bool (score o) q) (x :: l).
Proof.
  induction l as [|y l IH]; [reflexivity|].
  simpl insert_desc. destruct (Qle_bool (score y) (score x)) eqn:E.
  - reflexivity.
  - simpl in *. rewrite IH.
    destruct (Qeq_bool (score x) q) eqn:Ex; [|reflexivity].
    destruct (Qeq_bool (score y) q) eqn:Ey; [|reflexivity].
    exfalso. apply Qeq_bool_iff in Ex, Ey.
    assert (Hle : (score y <= score x)%Q) by (rewrite Ex, Ey; apply Qle_refl).
    apply Qle_bool_iff in Hle. congruence.
Qed.

Lemma sorted_desc_stable (q : Q) (l : list Object) :
  filter (fun o => Qeq_bool (score o) q) (sorted_desc l)
  = filter (fun o => Qeq_bool (score o) q) l.
Proof.
  induction l as [|x l IH]; [reflexivity|].
  simpl sorted_desc. rewrite insert_desc_stable. simpl. now rewrite IH.
Qed.

Lemma sorted_desc_sorted (l : list Object) :
  StronglySorted (fun a b => (score b <= score a)%Q) (sorted_desc l).
Proof.
  induction l as [|x l IH]; simpl; [constructor|now apply insert_desc_sorted].
Qed.

Lemma firstn_StronglySorted {A : Type} (R : A -> A -> Prop) (n : nat)
    (l : list A) :
  StronglySorted R l -> StronglySorted R (firstn n l).
Proof.
  revert l; induction n as [|n IH]; intros [|x l] H; simpl; try constructor.
  - apply IH. now inversion H.
  - inversion H as [|? ? _ Hx]; subst.
    rewrite Forall_forall in Hx |- *. intros z Hz.
    apply Hx. rewrite <- (firstn_skipn n l). apply in_or_app. now left.
Qed.

Lemma firstn_NoDup {A : Type} (n : nat) (l : list A) :
  NoDup l -> NoDup (firstn n l).
Proof.
  revert l; induction n as [|n IH]; intros [|x l] H; simpl; try constructor.
  - inversion H as [|? ? Hx _]; subst. intros Hin. apply Hx.
    rewrite <- (firstn_skipn n l). apply in_or_app. now left.
  - apply IH. now inversion H.
Qed.

(** What [sorted_objects] guarantees, whatever the pool. *)
Lemma sorted_objects_NoDup (pool : list Object) :
  NoDup (map uuid (sorted_objects pool)).
Proof.
  unfold sorted_objects. rewrite <- firstn_map. apply firstn_NoDup.
  apply Permutation_NoDup
    with (l := map uuid (dict_values (unique_objects pool))).
  - apply Permutation_map, sorted_desc_perm.
  - destruct (unique_objects_NoDup pool) as [Hnd ->]. exact Hnd.
Qed.

Lemma sorted_objects_length (pool : list Object) :
  List.length (sorted_objects pool) <= 5.
Proof. apply firstn_le_length. Qed.

Lemma sorted_objects_sorted (pool : list Object) :
  StronglySorted (fun a b => (score b <= score a)%Q) (sorted_objects pool).
Proof. apply firstn_StronglySorted, sorted_desc_sorted. Qed.

End EPLawFacts.

(** ** Claims about [EPLaw.call] *)

Module EPLawSpec.
Import Py PyStr PyStrFacts DictFacts EPLaw EPLawFacts.

Lemma bind_return_inv {world A B : Type} (m : M world A) (k : A -> M world B)
    (w w' : world) (b : B) :
  bind m k w = (Return b, w') ->
  exists a w1, m w = (Return a, w1) /\ k a w1 = (Return b, w').
Proof.
  unfold bind. destruct (m w) as [[a|e] w1]; intros H.
  - now exists a, w1.
  - discriminate.
Qed.

Ltac bind_inv H :=
  let a := fresh "a" in
  let w := fresh "w" in
  let Hm := fresh "Hm" in
  apply bind_return_inv in H; destruct H as (a & w & Hm & H).

Section Call.
Variable world : Type.
Variable connect_to_local integrations_configure : M world unit.
Variable collections_get : string -> M world unit.
Variable client_close : M world unit.
Variable co_chat : string -> string -> M world string.
Variable co_chat_search_queries : string -> M world (list string).
Variable query_hybrid :
  string -> nat -> string -> string -> M world (list Object).

Local Abbreviation run_objects :=
  (call_objects world connect_to_local integrations_configure collections_get
     client_close co_chat co_chat_search_queries query_hybrid).
Local Abbreviation run :=
  (call world connect_to_local integrations_configure collections_get
     client_close co_chat co_chat_search_queries query_hybrid).

(** A returning call took its objects from [sorted_objects] of some pool. *)
Lemma call_objects_inv (parameters : dict string) (w w' : world)
    (objs : list Object) :
  run_objects parameters w = (Return objs, w') ->
  exists pool, objs = sorted_objects pool.
Proof.
  unfold call_objects. intros H.
  do 7 bind_inv H. injection H as <- _. eauto.
Qed.

Lemma call_inv (parameters : dict string) (w w' : world)
    (docs : list Document) :
  run parameters w = (Return docs, w') ->
  exists objs,
    run_objects parameters w = (Return objs, w')
    /\ docs = map to_document objs.
Proof.
  unfold call. intros H. bind_inv H. injection H as <- <-.
  exists a. split; [exact Hm|reflexivity].
Qed.

(** [call] returns whenever the services it calls do. *)
Lemma search_results_returns (questions : list string) (w : world) :
  (forall q w0, exists r w1, co_chat_search_queries q w0 = (Return r, w1)) ->
  exists r w',
    search_results world co_chat_search_queries questions w = (Return r, w').
Proof.
  intros Hq. revert w; induction questions as [|q qs IH]; intros w; simpl.
  - now exists [], w.
  - unfold bind. destruct (Hq q w) as (r & w1 & ->).
    destruct (IH w1) as (rs & w2 & ->). now exists (r ++ rs), w2.
Qed.

Lemma object_full_returns (query : string) (prompts : list string) (w : world) :
  (forall p n prop q w0, exists r w1,
      query_hybrid p n prop q w0 = (Return r, w1)) ->
  exists r w',
    object_full world query_hybrid query prompts w = (Return r, w').
Proof.
  intros Hh. revert w; induction prompts as [|p ps IH]; intros w; simpl.
  - now exists [], w.
  - unfold bind. destruct (Hh p 5 "text" query w) as (r & w1 & ->).
    destruct (IH w1) as (rs & w2 & ->). now exists (r ++ rs), w2.
Qed.

Lemma call_returns (parameters : dict string) (w : world) :
  (forall w0, exists w1, connect_to_local w0 = (Return tt, w1)) ->
  (forall w0, exists w1, integrations_configure w0 = (Return tt, w1)) ->
  (forall name w0, exists w1, collections_get name w0 = (Return tt, w1)) ->
  (forall w0, exists w1, client_close w0 = (Return tt, w1)) ->
  (forall p m w0, exists r w1, co_chat p m w0 = (Return r, w1)) ->
  (forall q w0, exists r w1, co_chat_search_queries q w0 = (Return r, w1)) ->
  (forall p n prop q w0, exists r w1,
      query_hybrid p n prop q w0 = (Return r, w1)) ->
  exists docs w', run parameters w = (Return docs, w').
Proof.
  intros Hconnect Hconf Hget Hclose Hchat Hq Hh.
  unfold call, call_objects, bind.
  destruct (Hconnect w) as (w1 & ->).
  destruct (Hconf w1) as (w2 & ->).
  destruct (Hget "EPO_LEGAL_DOCS" w2) as (w3 & ->).
  destruct (Hchat preamble (dict_get "query" EmptyString parameters) w3)
    as (reply & w4 & ->).
  destruct (search_results_returns
              (generated_questions reply
                 (dict_get "query" EmptyString parameters)) w4 Hq)
    as (prompts & w5 & ->).
  destruct (object_full_returns (dict_get "query" EmptyString parameters)
              prompts w5 Hh) as (pool & w6 & ->).
  destruct (Hclose w6) as (w7 & ->).
  unfold ret. now exists (map to_document (sorted_objects pool)), w7.
Qed.

(** C2: whatever the searches return, the list [call] returns is built
    from objects of pairwise distinct [uuid]: each identifier appears at
    most once. *)
Theorem call_returns_distinct_uuids (parameters : dict string)
    (w w' : world) (docs : list Document) :
  run parameters w = (Return docs, w') ->
  exists objs,
    run_objects parameters w = (Return objs, w')
    /\ docs = map to_document objs
    /\ NoDup (map uuid objs).
Proof.
  intros H. destruct (call_inv _ _ _ _ H) as (objs & Hobjs & ->).
  exists objs. repeat split; try assumption.
  destruct (call_objects_inv _ _ _ _ Hobjs) as [pool ->].
  apply sorted_objects_NoDup.
Qed.

(** C3: the list [call] returns has at most 5 elements, and the objects
    it is built from are in non-increasing order of rerank score. *)
Theorem call_returns_top_five_sorted (parameters : dict string)
    (w w' : world) (docs : list Document) :
  run parameters w = (Return docs, w') ->
  List.length docs <= 5
  /\ exists objs,
       run_objects parameters w = (Return objs, w')
       /\ docs = map to_document objs
       /\ StronglySorted (fun a b => (score b <= score a)%Q) objs.
Proof.
  intros H. destruct (call_inv _ _ _ _ H) as (objs & Hobjs & ->).
  destruct (call_objects_inv _ _ _ _ Hobjs) as [pool ->].
  split.
  - rewrite length_map. apply sorted_objects_length.
  - exists (sorted_objects pool). repeat split; try assumption.
    apply sorted_objects_sorted.
Qed.
End Call.

Lemma trimmed_nonempty_map_filter (fragments : list string) :
  map strip
    (filter (fun q => negb (String.eqb (strip q) EmptyString)) fragments)
  = trimmed_nonempty fragments.
Proof.
  induction fragments as [|fragment rest IH]; simpl; [reflexivity|].
  destruct (String.eqb (strip fragment) EmptyString); simpl; now rewrite IH.
Qed.

(** C4: the expansion list ends with the original query, so it has at
    least one prompt; the prompts before it are exactly the fragments that
    follow a [">>>"] marker of the chat response, each trimmed, the empty
    ones discarded, in their order. *)
Theorem expansion_contains_query (response_text query : string) :
  In query (generated_questions response_text query)
  /\ 1 <= List.length (generated_questions response_text query)
  /\ exists kept,
       generated_questions response_text query = kept ++ [query]
       /\ kept = trimmed_nonempty (tl (split ">>>" response_text))
       /\ Forall (fun q =>
                    q <> EmptyString
                    /\ exists fragment,
                         In fragment (tl (split ">>>" response_text))
                         /\ q = strip fragment) kept.
Proof.
  unfold generated_questions. split; [|split].
  - apply in_or_app. right. now left.
  - rewrite length_app. simpl. lia.
  - eexists. split; [reflexivity|]. split.
    + apply trimmed_nonempty_map_filter.
    + rewrite Forall_forall. intros q Hq.
      apply in_map_iff in Hq. destruct Hq as (fragment & <- & Hin).
      apply filter_In in Hin. destruct Hin as [Hin Hne]. split.
      * apply negb_true_iff, String.eqb_neq in Hne. exact Hne.
      * now exists fragment.
Qed.

Lemma find_drop_zero (sep s : string) (i : nat) :
  find sep s = Some i -> find sep (drop i s) = Some 0.
Proof.
  intros H. rewrite find_unfold. now rewrite (find_some_prefix _ _ _ H).
Qed.

(** C9: the fragment before the first [">>>"] is the head of the split and
    does not reach the expansion list, which is the one of the response
    with that fragment cut off; a response without any [">>>"] expands to
    the query alone. *)
Theorem expansion_discards_leading_fragment (response_text query : string) :
  (forall i, find ">>>" response_text = Some i ->
     split ">>>" response_text
     = take i response_text :: split ">>>" (drop (i + 3) response_text)
     /\ generated_questions response_text query
        = generated_questions (drop i response_text) query)
  /\ (~ occurs ">>>" response_text ->
      generated_questions response_text query = [query]).
Proof.
  split.
  - intros i H.
    assert (Hsep : ">>>" <> EmptyString) by discriminate.
    pose proof (split_find_some _ _ _ Hsep H) as Hs.
    pose proof (split_find_some _ _ _ Hsep (find_drop_zero _ _ _ H)) as Hd.
    rewrite drop_drop in Hd. simpl String.length in Hs, Hd.
    split; [exact Hs|].
    unfold generated_questions. rewrite Hs, Hd. reflexivity.
  - intros H. apply find_none_iff in H.
    unfold generated_questions. rewrite (split_find_none _ _ H). reflexivity.
Qed.

Lemma keyed_entries (d : dict Object) :
  map uuid (dict_values d) = dict_keys d ->
  forall k v, In (k, v) d -> uuid v = k.
Proof.
  induction d as [|[k' v'] d IH]; simpl; intros H k v Hin; [contradiction|].
  injection H as Hk Hd. destruct Hin as [[= <- <-]|Hin]; [assumption|].
  now apply IH.
Qed.

(** C5: of the pooled objects that share a [uuid] the dictionary keeps the
    one pooled last, and it keeps no other object of that [uuid]; the
    deduplicated pool is no larger than the pool. *)
Theorem dedup_last_write_wins (before after : list Object) (obj : Object) :
  Forall (fun o => uuid o <> uuid obj) after ->
  dict_lookup (uuid obj) (unique_objects (before ++ obj :: after)) = Some obj
  /\ In obj (dict_values (unique_objects (before ++ obj :: after)))
  /\ Forall (fun o => uuid o = uuid obj -> o = obj)
            (dict_values (unique_objects (before ++ obj :: after)))
  /\ List.length (dict_values (unique_objects (before ++ obj :: after)))
     <= List.length (before ++ obj :: after).
Proof.
  intros H.
  pose proof (unique_objects_last before after obj H) as Hlast.
  destruct (unique_objects_NoDup (before ++ obj :: after)) as [Hnd Hkeyed].
  split; [exact Hlast|]. split; [|split].
  - apply dict_lookup_Some_In in Hlast.
    change obj with (snd (uuid obj, obj)). now apply in_map.
  - rewrite Forall_forall. intros o Ho Hsame.
    apply in_map_iff in Ho. destruct Ho as ([k v] & Hv & Hin).
    simpl in Hv; subst v.
    pose proof (keyed_entries _ Hkeyed _ _ Hin) as Hk. subst k.
    apply (dict_lookup_In _ _ _ Hnd) in Hin.
    rewrite Hsame, Hlast in Hin. congruence.
  - apply unique_objects_length.
Qed.

End EPLawSpec.

(** Runs of [EPLaw.call] on the concrete services. *)

Module EPLawRuns.
Import Py PyStr PyStrFacts EPLaw EPLawSpec.

Example split_marker :
  split ">>>" "intro >>> a b
>>> c>>>>d" = ["intro "; " a b
"; " c"; ">d"].
Proof. reflexivity. Qed.

Example split_marker_only : split ">>>" ">>>" = [EmptyString; EmptyString].
Proof. reflexivity. Qed.

Example strip_both_ends : strip "  a b
 " = "a b".
Proof. reflexivity. Qed.

Example generated_questions_reply :
  generated_questions "Here you go:
>>> What is novelty?
>>>   
>>> What is prior art? " "prior art novelty"
  = ["What is novelty?"; "What is prior art?"; "prior art novelty"].
Proof. reflexivity. Qed.

Example eplaw_call_run :
  Fixtures.eplaw_call Fixtures.query_parameters tt
  = (Return Fixtures.expected_documents, tt).
Proof. reflexivity. Qed.

Lemma call_returns_distinct_uuids_witness :
  Fixtures.eplaw_call Fixtures.query_parameters tt
  = (Return Fixtures.expected_documents, tt)
  /\ exists objs,
       call_objects unit Fixtures.unit_step Fixtures.unit_step
         (fun _ => Fixtures.unit_step) Fixtures.unit_step Fixtures.chat_reply
         Fixtures.chat_queries Fixtures.hybrid Fixtures.query_parameters tt
       = (Return objs, tt)
       /\ Fixtures.expected_documents = map to_document objs
       /\ NoDup (map uuid objs).
Proof.
  split; [reflexivity|].
  apply (call_returns_distinct_uuids unit Fixtures.unit_step Fixtures.unit_step
           (fun _ => Fixtures.unit_step) Fixtures.unit_step Fixtures.chat_reply
           Fixtures.chat_queries Fixtures.hybrid Fixtures.query_parameters
           tt tt Fixtures.expected_documents).
  reflexivity.
Defined.

Lemma call_returns_top_five_sorted_witness :
  Fixtures.eplaw_call Fixtures.query_parameters tt
  = (Return Fixtures.expected_documents, tt)
  /\ List.length Fixtures.expected_documents <= 5
  /\ exists objs,
       call_objects unit Fixtures.unit_step Fixtures.unit_step
         (fun _ => Fixtures.unit_step) Fixtures.unit_step Fixtures.chat_reply
         Fixtures.chat_queries Fixtures.hybrid Fixtures.query_parameters tt
       = (Return objs, tt)
       /\ Fixtures.expected_documents = map to_document objs
       /\ StronglySorted (fun a b => (score b <= score a)%Q) objs.
Proof.
  split; [reflexivity|].
  apply (call_returns_top_five_sorted unit Fixtures.unit_step Fixtures.unit_step
           (fun _ => Fixtures.unit_step) Fixtures.unit_step Fixtures.chat_reply
           Fixtures.chat_queries Fixtures.hybrid Fixtures.query_parameters
           tt tt Fixtures.expected_documents).
  reflexivity.
Defined.

Lemma expansion_discards_leading_fragment_witness :
  (find ">>>" "Sure: >>> a" = Some 6
   /\ generated_questions "Sure: >>> a" "q" = generated_questions ">>> a" "q")
  /\ (~ occurs ">>>" "no marker >> here"
      /\ generated_questions "no marker >> here" "q" = ["q"]).
Proof.
  split.
  - split; [reflexivity|].
    exact (proj2 (proj1 (expansion_discards_leading_fragment "Sure: >>> a" "q")
                   6 eq_refl)).
  - assert (H : ~ occurs ">>>" "no marker >> here")
      by (apply find_none_iff; reflexivity).
    split; [exact H|].
    exact (proj2 (expansion_discards_leading_fragment "no marker >> here" "q") H).
Defined.

Lemma dedup_last_write_wins_witness :
  Forall (fun o => uuid o <> uuid Fixtures.art54_high) [Fixtures.rule42]
  /\ dict_lookup "art54"
       (unique_objects
          ([Fixtures.art54_low; Fixtures.art56] ++ Fixtures.art54_high
             :: [Fixtures.rule42]))
     = Some Fixtures.art54_high.
Proof.
  assert (H : Forall (fun o => uuid o <> uuid Fixtures.art54_high)
                [Fixtures.rule42])
    by (repeat constructor; discriminate).
  split; [exact H|].
  exact (proj1 (dedup_last_write_wins [Fixtures.art54_low; Fixtures.art56]
                  [Fixtures.rule42] Fixtures.art54_high H)).
Defined.

End EPLawRuns.

(** ** Claims about [PatentClaims.call] *)

Module PatentClaimsSpec.
Import Py PatentClaims.

(** On a list of dicts the comprehension is a filter on the language tag. *)
Lemma english_only_objects (claims : list json) :
  Forall (fun c => is_object c = true) claims ->
  english_only claims = Return (filter tagged_EN claims).
Proof.
  induction 1 as [|claim rest Hobj _ IH]; simpl.
  - reflexivity.
  - destruct claim; try discriminate. simpl.
    rewrite IH. simpl. reflexivity.
Qed.

(** An item that is no dict stops the comprehension. *)
Lemma english_only_not_object (claim : json) (rest : list json) :
  is_object claim = false ->
  english_only (claim :: rest) = Raise (AttributeError "get").
Proof. destruct claim; simpl; intros H; try reflexivity; discriminate. Qed.

Section Call.
Variable world : Type.
Variable requests_post :
  string -> dict string -> option string * option string -> M world Response.
Variable requests_get : string -> dict string -> M world Response.
Variable client_id_key client_secret_key : option string.
Variable str : json -> string.

Local Abbreviation run :=
  (call world requests_post requests_get client_id_key client_secret_key str).
Local Abbreviation token_request :=
  (requests_post token_url [("grant_type", "client_credentials")]
     (client_id_key, client_secret_key)).

(** When the token request raises, the handler leaves [auth_response] at
    [None] and the next line raises. *)
Lemma call_token_request_raises (parameters : dict string) (w w1 : world)
    (e : exn) :
  token_request w = (Raise e, w1) ->
  run parameters w = (Raise (AttributeError "status_code"), w1).
Proof.
  intros H. unfold call, bind, auth_response. rewrite H. reflexivity.
Qed.

(** When the token endpoint answers with another status than 200, the
    [return] reads a local that no branch assigned. *)
Lemma call_token_refused (parameters : dict string) (w w1 : world)
    (token : Response) :
  token_request w = (Return token, w1) ->
  status_code token <> 200%Z ->
  run parameters w = (Raise (UnboundLocalError "claims_in_english"), w1).
Proof.
  intros H Hs. apply Z.eqb_neq in Hs.
  unfold call, bind, auth_response, fetch_claims. rewrite H, Hs. reflexivity.
Qed.

(** The same when the data fetch answers with another status than 200. *)
Lemma call_fetch_refused (parameters : dict string) (w w1 w2 : world)
    (token fetched : Response) (access_token : json) :
  token_request w = (Return token, w1) ->
  status_code token = 200%Z ->
  rbind (response_json token) (fun j => getitem j "access_token")
  = Return access_token ->
  requests_get (data_url (dict_get "patent_number" EmptyString parameters))
    (headers str access_token) w1 = (Return fetched, w2) ->
  status_code fetched <> 200%Z ->
  run parameters w = (Raise (UnboundLocalError "claims_in_english"), w2).
Proof.
  intros H Hs Ht Hg Hf. apply Z.eqb_neq in Hf.
  unfold call, bind, auth_response, fetch_claims, bind, lift.
  rewrite H, Hs, Ht. simpl. rewrite Hg, Hf. reflexivity.
Qed.

(** C7, amended: when the token endpoint answers 200 with a JSON body that
    holds an [access_token], and the data fetch answers 200 with a JSON
    body whose claims entry is a list of dicts, [call] returns one element
    whose text is the formatted list of exactly the claims tagged ["EN"]. *)
Theorem call_returns_english_claims (parameters : dict string)
    (w w1 w2 : world) (token fetched : Response) (access_token data : json)
    (claims : list json) :
  token_request w = (Return token, w1) ->
  status_code token = 200%Z ->
  rbind (response_json token) (fun j => getitem j "access_token")
  = Return access_token ->
  requests_get (data_url (dict_get "patent_number" EmptyString parameters))
    (headers str access_token) w1 = (Return fetched, w2) ->
  status_code fetched = 200%Z ->
  body fetched = Some data ->
  claims_of data = Return (JArray claims) ->
  Forall (fun c => is_object c = true) claims ->
  run parameters w
  = (Return [[("text", str (JArray (filter tagged_EN claims)))]], w2).
Proof.
  intros H Hs Ht Hg Hf Hb Hc Hobj.
  unfold call, bind, auth_response, fetch_claims, bind, lift.
  rewrite H, Hs, Ht. simpl. rewrite Hg, Hf.
  unfold response_json. rewrite Hb, Hc.
  unfold claims_in_english. simpl.
  rewrite (english_only_objects claims Hobj). reflexivity.
Qed.
End Call.

(** C1: on each of the three failures the code raises where the claim has
    it return an error text: the token request raising, a token answer
    401, and a data answer 404. *)
Theorem call_raises_on_failure :
  Fixtures.patent_call (Raise (ServiceError "connection refused"))
    (Return Fixtures.not_found) Fixtures.patent_parameters tt
  = (Raise (AttributeError "status_code"), tt)
  /\ Fixtures.patent_call (Return Fixtures.token_denied)
       (Return Fixtures.not_found) Fixtures.patent_parameters tt
     = (Raise (UnboundLocalError "claims_in_english"), tt)
  /\ Fixtures.patent_call (Return Fixtures.token_ok)
       (Return Fixtures.not_found) Fixtures.patent_parameters tt
     = (Raise (UnboundLocalError "claims_in_english"), tt).
Proof. repeat split. Qed.

(** C7 as stated fails: both answers are 200, the claims entry is a single
    dict, and [call] raises on its first key instead of returning. *)
Lemma call_raises_on_claims_object :
  status_code Fixtures.token_ok = 200%Z
  /\ status_code (Fixtures.fulltext Fixtures.claim_en) = 200%Z
  /\ Fixtures.patent_call (Return Fixtures.token_ok)
       (Return (Fixtures.fulltext Fixtures.claim_en))
       Fixtures.patent_parameters tt
     = (Raise (AttributeError "get"), tt)
  /\ ~ (exists out w',
          Fixtures.patent_call (Return Fixtures.token_ok)
            (Return (Fixtures.fulltext Fixtures.claim_en))
            Fixtures.patent_parameters tt
          = (Return out, w')).
Proof.
  repeat split. intros (out & w' & H). discriminate H.
Qed.

Lemma call_returns_english_claims_witness :
  Fixtures.patent_call (Return Fixtures.token_ok)
    (Return (Fixtures.fulltext
               (JArray [Fixtures.claim_en; Fixtures.claim_de; Fixtures.claim_en])))
    Fixtures.patent_parameters tt
  = (Return [[("text",
               Fixtures.str (JArray [Fixtures.claim_en; Fixtures.claim_en]))]],
     tt).
Proof.
  apply (call_returns_english_claims unit
           (Fixtures.post_answers (Return Fixtures.token_ok))
           (Fixtures.get_answers
              (Return (Fixtures.fulltext
                         (JArray [Fixtures.claim_en; Fixtures.claim_de;
                                  Fixtures.claim_en]))))
           (Some "id") (Some "secret") Fixtures.str Fixtures.patent_parameters
           tt tt tt Fixtures.token_ok
           (Fixtures.fulltext
              (JArray [Fixtures.claim_en; Fixtures.claim_de; Fixtures.claim_en]))
           (JString "t0k3n")
           (JObject [("ops:world-patent-data",
              JObject [("ftxt:fulltext-documents",
                JObject [("ftxt:fulltext-document",
                  JObject [("claims",
                    JArray [Fixtures.claim_en; Fixtures.claim_de;
                            Fixtures.claim_en])])])])])
           [Fixtures.claim_en; Fixtures.claim_de; Fixtures.claim_en]);
    try reflexivity.
  repeat constructor.
Defined.

End PatentClaimsSpec.

(** ** Claims about the agent router *)

Module AgentRouterSpec.
Import Py PyStr AgentRouter.

Lemma occurs_middle (pre ident post : string) :
  occurs ident (pre ++ ident ++ post).
Proof. now exists pre, post. Qed.

Lemma status_400_client_error {A : Type} (ident detail : string) :
  occurs ident detail ->
  not_found_response ident (@HTTPException A 400 detail).
Proof.
  intros H. split.
  - exists 400%Z, detail. split; [reflexivity|]. split; [lia|exact H].
  - intros (code & d & Heq & Hcode). injection Heq as <- _. lia.
Qed.

Section Handlers.
Variable Session : Type.
Variable Request : Type.
Variable get_header_user_id : Request -> string.
Variable crud_create_agent : Session -> Agent -> outcome Agent * Session.
Variable crud_get_agent_by_id :
  Session -> string -> outcome (option Agent) * Session.
Variable UpdateAgent : Type.
Variable crud_update_agent :
  Session -> Agent -> UpdateAgent -> outcome Agent * Session.
Variable crud_delete_agent : Session -> string -> outcome unit * Session.
Variable crud_create_agent_tool_metadata :
  Session -> AgentToolMetadata -> outcome AgentToolMetadata * Session.
Variable crud_get_agent_tool_metadata_by_id :
  Session -> string -> outcome (option AgentToolMetadata) * Session.
Variable UpdateAgentToolMetadata : Type.
Variable crud_update_agent_tool_metadata :
  Session -> AgentToolMetadata -> UpdateAgentToolMetadata
  -> outcome AgentToolMetadata * Session.
Variable crud_delete_agent_tool_metadata_by_id :
  Session -> string -> outcome unit * Session.

Local Abbreviation h_get_agent_by_id :=
  (get_agent_by_id Session crud_get_agent_by_id).
Local Abbreviation h_update_agent :=
  (update_agent Session crud_get_agent_by_id UpdateAgent crud_update_agent).
Local Abbreviation h_delete_agent :=
  (delete_agent Session crud_get_agent_by_id crud_delete_agent).
Local Abbreviation h_update_agent_tool_metadata :=
  (update_agent_tool_metadata Session crud_get_agent_tool_metadata_by_id
     UpdateAgentToolMetadata crud_update_agent_tool_metadata).
Local Abbreviation h_delete_agent_tool_metadata :=
  (delete_agent_tool_metadata Session crud_get_agent_tool_metadata_by_id
     crud_delete_agent_tool_metadata_by_id).
Local Abbreviation h_create_agent :=
  (create_agent Session Request get_header_user_id crud_create_agent
     crud_create_agent_tool_metadata).
Local Abbreviation h_create_tools_metadata :=
  (create_tools_metadata Session crud_create_agent_tool_metadata).
Local Abbreviation stored := (persisted Session crud_get_agent_by_id).

(** C10: when the lookup returns no record, each of the five handlers
    raises [HTTPException] with status code 400 (not 404) and its
    not-found detail. *)
Theorem missing_record_status_400 (agent_id agent_tool_metadata_id : string)
    (new_agent : UpdateAgent)
    (new_agent_tool_metadata : UpdateAgentToolMetadata)
    (st : state Session) (s1 s2 : Session) :
  crud_get_agent_by_id (session Session st) agent_id = (Done None, s1) ->
  crud_get_agent_tool_metadata_by_id (session Session st)
    agent_tool_metadata_id = (Done None, s2) ->
  fst (h_get_agent_by_id agent_id st)
  = HTTPException 400 (not_found_colon agent_id)
  /\ fst (h_update_agent agent_id new_agent st)
     = HTTPException 400 (not_found agent_id)
  /\ fst (h_delete_agent agent_id st)
     = HTTPException 400 (not_found agent_id)
  /\ fst (h_update_agent_tool_metadata agent_id agent_tool_metadata_id
            new_agent_tool_metadata st)
     = HTTPException 400 (tool_metadata_not_found agent_tool_metadata_id)
  /\ fst (h_delete_agent_tool_metadata agent_id agent_tool_metadata_id st)
     = HTTPException 400 (tool_metadata_not_found agent_tool_metadata_id).
Proof.
  intros Ha Hm.
  unfold get_agent_by_id, update_agent, delete_agent,
    update_agent_tool_metadata, delete_agent_tool_metadata.
  rewrite Ha, Hm. repeat split.
Qed.

(** C6: when the lookup succeeds and returns no record, each of the five
    handlers raises a client error (4xx) whose detail mentions the
    identifier asked for, and no server error (5xx). *)
Theorem missing_record_is_client_error
    (agent_id agent_tool_metadata_id : string) (new_agent : UpdateAgent)
    (new_agent_tool_metadata : UpdateAgentToolMetadata)
    (st : state Session) (s1 s2 : Session) :
  crud_get_agent_by_id (session Session st) agent_id = (Done None, s1) ->
  crud_get_agent_tool_metadata_by_id (session Session st)
    agent_tool_metadata_id = (Done None, s2) ->
  not_found_response agent_id (fst (h_get_agent_by_id agent_id st))
  /\ not_found_response agent_id (fst (h_update_agent agent_id new_agent st))
  /\ not_found_response agent_id (fst (h_delete_agent agent_id st))
  /\ not_found_response agent_tool_metadata_id
       (fst (h_update_agent_tool_metadata agent_id agent_tool_metadata_id
               new_agent_tool_metadata st))
  /\ not_found_response agent_tool_metadata_id
       (fst (h_delete_agent_tool_metadata agent_id agent_tool_metadata_id st)).
Proof.
  intros Ha Hm.
  unfold get_agent_by_id, update_agent, delete_agent,
    update_agent_tool_metadata, delete_agent_tool_metadata.
  rewrite Ha, Hm. simpl.
  unfold not_found_colon, not_found, tool_metadata_not_found.
  split; [|split; [|split; [|split]]];
    apply status_400_client_error; apply occurs_middle.
Qed.

(** The loop over a concatenation runs the first part, then the second. *)
Lemma create_tools_metadata_app (uid : string) (created : Agent)
    (l1 l2 : list CreateAgentToolMetadata) (s : Session) :
  h_create_tools_metadata uid created (l1 ++ l2) s
  = match h_create_tools_metadata uid created l1 s with
    | (Done _, s') => h_create_tools_metadata uid created l2 s'
    | (Failed e, s') => (Failed e, s')
    end.
Proof.
  revert s; induction l1 as [|m l1 IH]; intros s; simpl.
  - reflexivity.
  - destruct (crud_create_agent_tool_metadata s
                (agent_tool_metadata_data uid created m)) as [[row|e] s'].
    + apply IH.
    + reflexivity.
Qed.

Lemma create_tools_metadata_stored (uid : string) (created : Agent)
    (agent_id : string) (l : list CreateAgentToolMetadata) (s : Session) :
  (forall s0 m, stored s0 agent_id created ->
     stored (snd (crud_create_agent_tool_metadata s0 m)) agent_id created) ->
  stored s agent_id created ->
  stored (snd (h_create_tools_metadata uid created l s)) agent_id created.
Proof.
  intros Hframe. revert s; induction l as [|m l IH]; intros s Hs; simpl.
  - exact Hs.
  - pose proof (Hframe s (agent_tool_metadata_data uid created m) Hs) as Hm.
    destruct (crud_create_agent_tool_metadata s
                (agent_tool_metadata_data uid created m)) as [[row|e] s'].
    + now apply IH.
    + exact Hm.
Qed.

(** C8: when the agent insert succeeds and a later tool-metadata insert
    raises, [create_agent] raises [HTTPException] 500 with the message of
    the failure, and the database is left as the failing insert left it:
    the handler makes no further persistence call, so the agent row is
    still stored (given that tool-metadata inserts do not touch it). *)
Theorem create_agent_not_atomic (agent : CreateAgent) (request : Request)
    (st : state Session) (created : Agent) (s1 s2 s3 : Session)
    (before after : list CreateAgentToolMetadata)
    (failing : CreateAgentToolMetadata) (e agent_id : string) :
  crud_create_agent (session Session st)
    (agent_data Request get_header_user_id agent request) = (Done created, s1) ->
  tools_metadata agent = Some (before ++ failing :: after) ->
  h_create_tools_metadata (get_header_user_id request) created before s1
  = (Done tt, s2) ->
  crud_create_agent_tool_metadata s2
    (agent_tool_metadata_data (get_header_user_id request) created failing)
  = (Failed e, s3) ->
  stored s1 agent_id created ->
  (forall s0 m, stored s0 agent_id created ->
     stored (snd (crud_create_agent_tool_metadata s0 m)) agent_id created) ->
  fst (h_create_agent agent request st) = HTTPException 500 e
  /\ session Session (snd (h_create_agent agent request st)) = s3
  /\ stored (session Session (snd (h_create_agent agent request st)))
       agent_id created.
Proof.
  intros Hc Ht Hb Hf Hs Hframe.
  assert (Hrun : h_create_tools_metadata (get_header_user_id request) created
                   (before ++ failing :: after) s1 = (Failed e, s3)).
  { rewrite create_tools_metadata_app, Hb. simpl. now rewrite Hf. }
  assert (Hs3 : stored s3 agent_id created).
  { pose proof (create_tools_metadata_stored (get_header_user_id request)
                  created agent_id (before ++ failing :: after) s1 Hframe Hs)
      as H. now rewrite Hrun in H. }
  unfold create_agent. simpl. rewrite Hc, Ht, Hrun. simpl.
  repeat split. exact Hs3.
Qed.
End Handlers.

End AgentRouterSpec.

(** Runs of the handlers on the in-memory store. *)

Module AgentRouterRuns.
Import Py PyStr AgentRouter AgentRouterSpec Fixtures.

Lemma store_frame (s : Store) (m : AgentToolMetadata) :
  persisted Store store_get_agent_by_id s "0" created_row ->
  persisted Store store_get_agent_by_id
    (snd (store_create_agent_tool_metadata s m)) "0" created_row.
Proof.
  unfold persisted, store_create_agent_tool_metadata, store_get_agent_by_id.
  destruct (String.eqb (tool_name m) EmptyString); simpl; auto.
Qed.

Example create_agent_run :
  mem_create_agent payload tt fresh_state
  = (HTTPException 500 "tool_name must not be empty",
     {| session := store_after_first_tool;
        state_agent := Some (agent_data unit header_user payload tt);
        state_agent_tool_metadata := None |}).
Proof. reflexivity. Qed.

Lemma missing_record_status_400_witness :
  store_get_agent_by_id empty_store "a-404" = (Done None, empty_store)
  /\ store_get_agent_tool_metadata_by_id empty_store "m-404"
     = (Done None, empty_store)
  /\ fst (mem_get_agent_by_id "a-404" fresh_state)
     = HTTPException 400 "Agent with ID: a-404 not found."
  /\ fst (mem_update_agent "a-404" "renamed" fresh_state)
     = HTTPException 400 "Agent with ID a-404 not found."
  /\ fst (mem_delete_agent "a-404" fresh_state)
     = HTTPException 400 "Agent with ID a-404 not found."
  /\ fst (mem_update_agent_tool_metadata "a-404" "m-404" "renamed" fresh_state)
     = HTTPException 400 "Agent tool metadata with ID m-404 not found."
  /\ fst (mem_delete_agent_tool_metadata "a-404" "m-404" fresh_state)
     = HTTPException 400 "Agent tool metadata with ID m-404 not found.".
Proof.
  split; [reflexivity|]. split; [reflexivity|].
  apply (missing_record_status_400 Store store_get_agent_by_id string
           store_update_agent store_delete_agent
           store_get_agent_tool_metadata_by_id string
           store_update_agent_tool_metadata
           store_delete_agent_tool_metadata_by_id
           "a-404" "m-404" "renamed" "renamed" fresh_state
           empty_store empty_store); reflexivity.
Defined.

Lemma missing_record_is_client_error_witness :
  store_get_agent_by_id empty_store "a-404" = (Done None, empty_store)
  /\ store_get_agent_tool_metadata_by_id empty_store "m-404"
     = (Done None, empty_store)
  /\ not_found_response "a-404" (fst (mem_get_agent_by_id "a-404" fresh_state))
  /\ not_found_response "a-404"
       (fst (mem_update_agent "a-404" "renamed" fresh_state))
  /\ not_found_response "a-404" (fst (mem_delete_agent "a-404" fresh_state))
  /\ not_found_response "m-404"
       (fst (mem_update_agent_tool_metadata "a-404" "m-404" "renamed"
               fresh_state))
  /\ not_found_response "m-404"
       (fst (mem_delete_agent_tool_metadata "a-404" "m-404" fresh_state)).
Proof.
  split; [reflexivity|]. split; [reflexivity|].
  apply (missing_record_is_client_error Store store_get_agent_by_id string
           store_update_agent store_delete_agent
           store_get_agent_tool_metadata_by_id string
           store_update_agent_tool_metadata
           store_delete_agent_tool_metadata_by_id
           "a-404" "m-404" "renamed" "renamed" fresh_state
           empty_store empty_store); reflexivity.
Defined.

Lemma create_agent_not_atomic_witness :
  store_create_agent empty_store (agent_data unit header_user payload tt)
  = (Done created_row, store_after_agent)
  /\ fst (mem_create_agent payload tt fresh_state)
     = HTTPException 500 "tool_name must not be empty"
  /\ session Store (snd (mem_create_agent payload tt fresh_state))
     = store_after_first_tool
  /\ persisted Store store_get_agent_by_id
       (session Store (snd (mem_create_agent payload tt fresh_state)))
       "0" created_row.
Proof.
  split; [reflexivity|].
  apply (create_agent_not_atomic Store unit header_user store_create_agent
           store_get_agent_by_id store_create_agent_tool_metadata
           payload tt fresh_state created_row
           store_after_agent store_after_first_tool store_after_first_tool
           [ {| c_tool_name := "search"; c_artifacts := [] |} ]
           [ {| c_tool_name := "files"; c_artifacts := [] |} ]
           {| c_tool_name := EmptyString; c_artifacts := [] |}
           "tool_name must not be empty" "0");
    try reflexivity.
  exact store_frame.
Defined.

End AgentRouterRuns.

(** ** More about the pipeline of [EPLaw.call] *)

Module EPLawMore.
Import Py PyStr PyStrFacts DictFacts EPLaw EPLawFacts.

(** *** Where the returned objects come from *)

Lemma dict_set_In {V : Type} (k k0 : string) (v v0 : V) (d : dict V) :
  In (k0, v0) (dict_set k v d) -> (k0, v0) = (k, v) \/ In (k0, v0) d.
Proof.
  induction d as [|[k' v'] d IH]; simpl.
  - intros [H|[]]. left. now symmetry.
  - destruct (String.eqb k k'); simpl.
    + intros [H|H]; [left; now symmetry|right; now right].
    + intros [H|H]; [right; now left|].
      destruct (IH H) as [Heq|Hin]; [now left|right; now right].
Qed.

Lemma fold_dict_set_In (pool : list Object) (d : dict Object) (k : string)
    (v : Object) :
  In (k, v) (fold_left (fun d obj => dict_set (uuid obj) obj d) pool d) ->
  In (k, v) d \/ In v pool.
Proof.
  revert d; induction pool as [|obj pool IH]; simpl; intros d H.
  - now left.
  - destruct (IH _ H) as [Hd|Hp]; [|right; now right].
    destruct (dict_set_In _ _ _ _ _ Hd) as [Heq|Hin]; [|now left].
    injection Heq as _ ->. right. now left.
Qed.

Lemma sorted_objects_In (pool : list Object) (o : Object) :
  In o (sorted_objects pool) -> In o pool.
Proof.
  unfold sorted_objects. intros H.
  assert (Hs : In o (sorted_desc (dict_values (unique_objects pool)))).
  { rewrite <- (firstn_skipn 5). apply in_or_app. now left. }
  apply (Permutation_in o (Permutation_sym (sorted_desc_perm _))) in Hs.
  apply in_map_iff in Hs. destruct Hs as ([k v] & Hv & Hin).
  simpl in Hv; subst v.
  destruct (fold_dict_set_In pool [] k o Hin) as [[]|Hp]. exact Hp.
Qed.

(** X1: every object the result is built from is one of the pooled search
    hits. *)
Theorem sorted_objects_from_pool (pool : list Object) :
  Forall (fun o => In o pool) (sorted_objects pool).
Proof. rewrite Forall_forall. intros o. apply sorted_objects_In. Qed.

(** *** How many objects come back *)

Lemma fold_dict_set_keys (pool : list Object) (d : dict Object) (k : string) :
  In k (dict_keys (fold_left (fun d obj => dict_set (uuid obj) obj d) pool d))
  <-> In k (dict_keys d) \/ In k (map uuid pool).
Proof.
  revert d; induction pool as [|obj pool IH]; simpl; intros d.
  - intuition.
  - rewrite IH, dict_keys_set. intuition.
Qed.

Lemma unique_objects_count (pool : list Object) :
  List.length (dict_values (unique_objects pool))
  = List.length (nodup string_dec (map uuid pool)).
Proof.
  destruct (unique_objects_NoDup pool) as [Hnd _].
  unfold dict_values. rewrite length_map.
  rewrite <- (length_map fst). apply Permutation_length.
  apply NoDup_Permutation; [exact Hnd|apply NoDup_nodup|].
  intros k. rewrite nodup_In. unfold unique_objects.
  pose proof (fold_dict_set_keys pool [] k) as H. unfold dict_keys in *.
  simpl in H. intuition.
Qed.

(** X2: the result has as many elements as the pool has distinct [uuid]s,
    up to 5. *)
Theorem sorted_objects_count (pool : list Object) :
  List.length (sorted_objects pool)
  = Nat.min 5 (List.length (nodup string_dec (map uuid pool))).
Proof.
  unfold sorted_objects. rewrite length_firstn.
  rewrite <- (Permutation_length (sorted_desc_perm _)).
  now rewrite unique_objects_count.
Qed.

(** *** What the truncation drops *)

Lemma firstn_outranks_skipn {A : Type} (R : A -> A -> Prop) (n : nat)
    (l : list A) :
  StronglySorted R l ->
  Forall (fun a => Forall (R a) (skipn n l)) (firstn n l).
Proof.
  revert l; induction n as [|n IH]; intros [|x l] H; simpl; try constructor.
  - inversion H as [|? ? _ Hx]; subst.
    rewrite Forall_forall in Hx |- *. intros z Hz. apply Hx.
    rewrite <- (firstn_skipn n l). apply in_or_app. now right.
  - apply IH. now inversion H.
Qed.

(** X3: the deduplicated pool is the returned objects together with the
    dropped ones, and no dropped object has a higher score than a returned
    one. *)
Theorem truncation_keeps_best (pool : list Object) :
  Permutation (dict_values (unique_objects pool))
    (sorted_objects pool
     ++ skipn 5 (sorted_desc (dict_values (unique_objects pool))))
  /\ Forall (fun kept =>
               Forall (fun dropped => (score dropped <= score kept)%Q)
                 (skipn 5 (sorted_desc (dict_values (unique_objects pool)))))
       (sorted_objects pool).
Proof.
  split.
  - unfold sorted_objects. rewrite firstn_skipn. apply sorted_desc_perm.
  - apply (firstn_outranks_skipn (fun a b => (score b <= score a)%Q)).
    apply sorted_desc_sorted.
Qed.

(** *** Deduplicating again *)

Lemma dict_set_fresh {V : Type} (k : string) (v : V) (d : dict V) :
  ~ In k (dict_keys d) -> dict_set k v d = d ++ [(k, v)].
Proof.
  induction d as [|[k' v'] d IH]; simpl; intros H.
  - reflexivity.
  - destruct (String.eqb k k') eqn:E.
    + apply String.eqb_eq in E. exfalso. apply H. left. now symmetry.
    + rewrite IH; [reflexivity|]. intros Hin. apply H. now right.
Qed.

Lemma fold_dict_set_rebuild (d2 d1 : dict Object) :
  NoDup (dict_keys (d1 ++ d2)) ->
  map uuid (dict_values d2) = dict_keys d2 ->
  fold_left (fun d obj => dict_set (uuid obj) obj d) (dict_values d2) d1
  = d1 ++ d2.
Proof.
  revert d1; induction d2 as [|[k v] d2 IH]; simpl; intros d1 Hnd Hk.
  - now rewrite app_nil_r.
  - injection Hk as Hv Hk. rewrite Hv.
    assert (Hfresh : ~ In k (dict_keys d1)).
    { unfold dict_keys in *. rewrite map_app in Hnd. simpl in Hnd.
      apply NoDup_remove_2 in Hnd. intros Hin. apply Hnd.
      apply in_or_app. now left. }
    rewrite (dict_set_fresh k v d1 Hfresh).
    rewrite IH.
    + now rewrite <- app_assoc.
    + now rewrite <- app_assoc.
    + exact Hk.
Qed.

(** X4: deduplicating the deduplicated pool again changes nothing. *)
Theorem unique_objects_idempotent (pool : list Object) :
  unique_objects (dict_values (unique_objects pool)) = unique_objects pool.
Proof.
  destruct (unique_objects_NoDup pool) as [Hnd Hk].
  unfold unique_objects at 1.
  now rewrite (fold_dict_set_rebuild (unique_objects pool) []).
Qed.

(** *** The expansion list *)

Lemma split_from_not_nil (sep : string) (k : nat) (s : string) :
  split_from sep k s <> [].
Proof.
  revert k; induction s as [|c s IH]; intros k.
  - discriminate.
  - destruct k as [|k]; [|apply IH].
    change (split sep (String c s) <> []). rewrite split_cons.
    destruct (prefix sep (String c s)); [discriminate|].
    destruct (split sep s); discriminate.
Qed.

(** X5: the expansion list is no longer than the split of the response:
    one prompt per marker at most, and the query. *)
Theorem expansion_length_bound (response_text query : string) :
  List.length (generated_questions response_text query)
  <= List.length (split ">>>" response_text).
Proof.
  unfold generated_questions. rewrite length_app, length_map. simpl.
  pose proof (split_from_not_nil ">>>" 0 response_text) as Hne.
  unfold split. destruct (split_from ">>>" 0 response_text) as [|h t];
    [congruence|].
  simpl. pose proof (filter_length_le
    (fun q => negb (String.eqb (strip q) EmptyString)) t). lia.
Qed.

Lemma rstrip_keeps_head (c : ascii) (s : string) :
  isspace c = false -> rstrip (String c s) = String c (rstrip s).
Proof. intros H. simpl. rewrite H. now destruct (rstrip s). Qed.

Lemma rstrip_cons (c : ascii) (s : string) :
  rstrip (String c s)
  = match rstrip s with
    | EmptyString => if isspace c then EmptyString else String c EmptyString
    | r => String c r
    end.
Proof. reflexivity. Qed.

Lemma rstrip_idempotent (s : string) : rstrip (rstrip s) = rstrip s.
Proof.
  induction s as [|c s IH]; [reflexivity|].
  rewrite rstrip_cons. destruct (rstrip s) as [|d r] eqn:E.
  - destruct (isspace c) eqn:Hc; [reflexivity|].
    rewrite rstrip_cons. simpl. now rewrite Hc.
  - rewrite rstrip_cons, IH. reflexivity.
Qed.

Lemma lstrip_head (s : string) :
  lstrip s = EmptyString
  \/ exists c r, lstrip s = String c r /\ isspace c = false.
Proof.
  induction s as [|c s IH]; simpl; [now left|].
  destruct (isspace c) eqn:Hc; [exact IH|]. right. now exists c, s.
Qed.

Lemma strip_idempotent (s : string) : strip (strip s) = strip s.
Proof.
  unfold strip. destruct (lstrip_head s) as [->|(c & r & -> & Hc)].
  - reflexivity.
  - rewrite (rstrip_keeps_head c r Hc). simpl lstrip. rewrite Hc.
    rewrite (rstrip_keeps_head c _ Hc). now rewrite rstrip_idempotent.
Qed.

(** X6: the prompts before the query carry no leading or trailing
    whitespace (stripping them again changes nothing), while the query
    itself is appended as it came. *)
Theorem expansion_prompts_stripped (response_text query : string) :
  exists kept,
    generated_questions response_text query = kept ++ [query]
    /\ Forall (fun q => strip q = q) kept.
Proof.
  unfold generated_questions. eexists. split; [reflexivity|].
  rewrite Forall_forall. intros q Hq.
  apply in_map_iff in Hq. destruct Hq as (fragment & <- & _).
  apply strip_idempotent.
Qed.

End EPLawMore.

(** ** More about [EPLaw.call] and its services *)

Module EPLawCallMore.
Import Py PyStr EPLaw EPLawFacts.

Section Call.
Variable world : Type.
Variable connect_to_local integrations_configure : M world unit.
Variable collections_get : string -> M world unit.
Variable client_close : M world unit.
Variable co_chat : string -> string -> M world string.
Variable co_chat_search_queries : string -> M world (list string).
Variable query_hybrid :
  string -> nat -> string -> string -> M world (list Object).

Local Abbreviation run :=
  (call world connect_to_local integrations_configure collections_get
     client_close co_chat co_chat_search_queries query_hybrid).

Lemma search_results_none (questions : list string) (w : world) :
  (forall q w0, exists w1, co_chat_search_queries q w0 = (Return [], w1)) ->
  exists w',
    search_results world co_chat_search_queries questions w = (Return [], w').
Proof.
  intros Hq. revert w; induction questions as [|q qs IH]; intros w; simpl.
  - now exists w.
  - unfold bind. destruct (Hq q w) as (w1 & ->).
    destruct (IH w1) as (w2 & ->). now exists w2.
Qed.

(** X7: when the chat service extracts no search query from any prompt,
    [call] returns the empty list, whatever the vector search would do: no
    search is made. *)
Theorem call_without_search_queries (parameters : dict string) (w : world) :
  (forall w0, exists w1, connect_to_local w0 = (Return tt, w1)) ->
  (forall w0, exists w1, integrations_configure w0 = (Return tt, w1)) ->
  (forall name w0, exists w1, collections_get name w0 = (Return tt, w1)) ->
  (forall w0, exists w1, client_close w0 = (Return tt, w1)) ->
  (forall p m w0, exists r w1, co_chat p m w0 = (Return r, w1)) ->
  (forall q w0, exists w1, co_chat_search_queries q w0 = (Return [], w1)) ->
  exists w', run parameters w = (Return [], w').
Proof.
  intros Hconnect Hconf Hget Hclose Hchat Hq.
  unfold call, call_objects, bind.
  destruct (Hconnect w) as (w1 & ->).
  destruct (Hconf w1) as (w2 & ->).
  destruct (Hget "EPO_LEGAL_DOCS" w2) as (w3 & ->).
  destruct (Hchat preamble (dict_get "query" EmptyString parameters) w3)
    as (reply & w4 & ->).
  destruct (search_results_none
              (generated_questions reply
                 (dict_get "query" EmptyString parameters)) w4 Hq)
    as (w5 & ->).
  simpl. destruct (Hclose w5) as (w6 & ->).
  now exists w6.
Qed.

(** X8: an exception of the first vector search leaves [call] as it is,
    and the world is the one the search left: [client.close()] is not
    reached. *)
Theorem call_search_failure_propagates (parameters : dict string)
    (w w1 w2 w3 w4 w5 w6 : world) (reply prompt : string)
    (prompts : list string) (e : exn) :
  connect_to_local w = (Return tt, w1) ->
  integrations_configure w1 = (Return tt, w2) ->
  collections_get "EPO_LEGAL_DOCS" w2 = (Return tt, w3) ->
  co_chat preamble (dict_get "query" EmptyString parameters) w3
  = (Return reply, w4) ->
  search_results world co_chat_search_queries
    (generated_questions reply (dict_get "query" EmptyString parameters)) w4
  = (Return (prompt :: prompts), w5) ->
  query_hybrid prompt 5 "text" (dict_get "query" EmptyString parameters) w5
  = (Raise e, w6) ->
  run parameters w = (Raise e, w6).
Proof.
  intros H1 H2 H3 H4 H5 H6.
  unfold call, call_objects, bind.
  rewrite H1, H2, H3, H4, H5. simpl. unfold bind. rewrite H6. reflexivity.
Qed.
End Call.

Lemma call_without_search_queries_witness :
  exists w',
    call unit Fixtures.unit_step Fixtures.unit_step
      (fun _ => Fixtures.unit_step) Fixtures.unit_step Fixtures.chat_reply
      Fixtures.chat_queries_none Fixtures.hybrid_down
      Fixtures.query_parameters tt
    = (Return [], w').
Proof.
  apply (call_without_search_queries unit Fixtures.unit_step
           Fixtures.unit_step (fun _ => Fixtures.unit_step)
           Fixtures.unit_step Fixtures.chat_reply
           Fixtures.chat_queries_none Fixtures.hybrid_down
           Fixtures.query_parameters tt).
  - intros []. now exists tt.
  - intros []. now exists tt.
  - intros _ []. now exists tt.
  - intros []. now exists tt.
  - intros p m []. eexists. exists tt. reflexivity.
  - intros q []. now exists tt.
Defined.

Lemma call_search_failure_propagates_witness :
  call unit Fixtures.unit_step Fixtures.unit_step
    (fun _ => Fixtures.unit_step) Fixtures.unit_step Fixtures.chat_reply
    Fixtures.chat_queries Fixtures.hybrid_down Fixtures.query_parameters tt
  = (Raise (ServiceError "weaviate is down"), tt).
Proof.
  apply (call_search_failure_propagates unit Fixtures.unit_step
           Fixtures.unit_step (fun _ => Fixtures.unit_step)
           Fixtures.unit_step Fixtures.chat_reply Fixtures.chat_queries
           Fixtures.hybrid_down Fixtures.query_parameters
           tt tt tt tt tt tt tt
           "Here you go:
>>> What is novelty?
>>>   
>>> What is prior art? "
           "What is novelty?" ["What is prior art?"; "prior art novelty"]
           (ServiceError "weaviate is down"));
    reflexivity.
Defined.

End EPLawCallMore.

(** ** More about [PatentClaims.call] *)

Module PatentClaimsMore.
Import Py PatentClaims.

Section Call.
Variable world : Type.
Variable requests_post :
  string -> dict string -> option string * option string -> M world Response.
Variable requests_get : string -> dict string -> M world Response.
Variable client_id_key client_secret_key : option string.
Variable str : json -> string.

Local Abbreviation run :=
  (call world requests_post requests_get client_id_key client_secret_key str).
Local Abbreviation token_request :=
  (requests_post token_url [("grant_type", "client_credentials")]
     (client_id_key, client_secret_key)).

(** X9: [call] returns only when both answers carried status 200, and
    what it returns is a list of one element, a dict with the one key
    ["text"]. *)
Theorem call_returns_only_on_200 (parameters : dict string) (w w' : world)
    (out : list (dict string)) :
  run parameters w = (Return out, w') ->
  exists token w1 access_token fetched english,
    token_request w = (Return token, w1)
    /\ status_code token = 200%Z
    /\ requests_get (data_url (dict_get "patent_number" EmptyString parameters))
         (headers str access_token) w1 = (Return fetched, w')
    /\ status_code fetched = 200%Z
    /\ out = [[("text", str (JArray english))]].
Proof.
  unfold call, bind, auth_response, fetch_claims, bind, lift, raise, ret.
  destruct (token_request w) as [[token|e] w1]; [|discriminate].
  destruct (status_code token =? 200)%Z eqn:Hs; [|discriminate].
  destruct (rbind (response_json token) (fun j => getitem j "access_token"))
    as [access_token|e]; [|discriminate].
  destruct (requests_get
              (data_url (dict_get "patent_number" EmptyString parameters))
              (headers str access_token) w1) as [[fetched|e] w2] eqn:Hg;
    [|discriminate].
  destruct (status_code fetched =? 200)%Z eqn:Hf; [|discriminate].
  destruct (response_json fetched) as [data|e]; [|discriminate].
  destruct (claims_of data) as [claims|e]; [|discriminate].
  destruct (claims_in_english claims) as [english|e]; [|discriminate].
  intros H. injection H as <- <-.
  exists token, w1, access_token, fetched, english.
  apply Z.eqb_eq in Hs, Hf. repeat split; assumption.
Qed.

(** X10: a 200 data answer whose JSON object has no
    ["ops:world-patent-data"] entry makes [call] return the text of the
    empty list: the chain of [get]s falls back on its defaults. *)
Theorem call_without_patent_data (parameters : dict string)
    (w w1 w2 : world) (token fetched : Response) (access_token : json)
    (members : list (string * json)) :
  token_request w = (Return token, w1) ->
  status_code token = 200%Z ->
  rbind (response_json token) (fun j => getitem j "access_token")
  = Return access_token ->
  requests_get (data_url (dict_get "patent_number" EmptyString parameters))
    (headers str access_token) w1 = (Return fetched, w2) ->
  status_code fetched = 200%Z ->
  body fetched = Some (JObject members) ->
  dict_lookup "ops:world-patent-data" members = None ->
  run parameters w = (Return [[("text", str (JArray []))]], w2).
Proof.
  intros H Hs Ht Hg Hf Hb Hm.
  unfold call, bind, auth_response, fetch_claims, bind, lift.
  rewrite H, Hs, Ht. simpl. rewrite Hg, Hf.
  unfold response_json. rewrite Hb.
  unfold claims_of. simpl. unfold dict_get. rewrite Hm. reflexivity.
Qed.

(** X12: a 200 token answer whose JSON object has no ["access_token"]
    makes [call] raise [KeyError]; the world is the one the token request
    left. *)
Theorem call_token_without_key (parameters : dict string) (w w1 : world)
    (token : Response) (members : list (string * json)) :
  token_request w = (Return token, w1) ->
  status_code token = 200%Z ->
  body token = Some (JObject members) ->
  dict_lookup "access_token" members = None ->
  run parameters w = (Raise (KeyError "access_token"), w1).
Proof.
  intros H Hs Hb Hm.
  unfold call, bind, auth_response, fetch_claims, bind, lift.
  rewrite H, Hs. unfold response_json. rewrite Hb. simpl.
  rewrite Hm. reflexivity.
Qed.

(** X13: an exception of the data fetch is not caught: [call] raises
    it. *)
Theorem call_fetch_exception_propagates (parameters : dict string)
    (w w1 w2 : world) (token : Response) (access_token : json) (e : exn) :
  token_request w = (Return token, w1) ->
  status_code token = 200%Z ->
  rbind (response_json token) (fun j => getitem j "access_token")
  = Return access_token ->
  requests_get (data_url (dict_get "patent_number" EmptyString parameters))
    (headers str access_token) w1 = (Raise e, w2) ->
  run parameters w = (Raise e, w2).
Proof.
  intros H Hs Ht Hg.
  unfold call, bind, auth_response, fetch_claims, bind, lift.
  rewrite H, Hs, Ht. simpl. rewrite Hg. reflexivity.
Qed.
End Call.

(** X11: without a token with status 200 no data is fetched: whether the
    token request raised or was answered with another status, [call] does
    the same whatever [requests.get] would do. *)
Theorem call_fetches_only_with_token (world : Type)
    (requests_post :
       string -> dict string -> option string * option string
       -> M world Response)
    (requests_get requests_get' : string -> dict string -> M world Response)
    (client_id_key client_secret_key : option string) (str : json -> string)
    (parameters : dict string) (w : world) :
  (forall token w1,
      requests_post token_url [("grant_type", "client_credentials")]
        (client_id_key, client_secret_key) w = (Return token, w1) ->
      status_code token <> 200%Z) ->
  call world requests_post requests_get client_id_key client_secret_key str
    parameters w
  = call world requests_post requests_get' client_id_key client_secret_key str
      parameters w.
Proof.
  intros H. unfold call, bind, auth_response, fetch_claims.
  destruct (requests_post token_url [("grant_type", "client_credentials")]
              (client_id_key, client_secret_key) w) as [[token|e] w1] eqn:Hp.
  - specialize (H token w1 eq_refl). apply Z.eqb_neq in H. now rewrite H.
  - reflexivity.
Qed.

Lemma call_returns_only_on_200_witness :
  exists token w1 access_token fetched english,
    Fixtures.post_answers (Return Fixtures.token_ok) token_url
      [("grant_type", "client_credentials")] (Some "id", Some "secret") tt
    = (Return token, w1)
    /\ status_code token = 200%Z
    /\ Fixtures.get_answers
         (Return (Fixtures.fulltext (JArray [Fixtures.claim_en])))
         (data_url (dict_get "patent_number" EmptyString
                      Fixtures.patent_parameters))
         (headers Fixtures.str access_token) w1
       = (Return fetched, tt)
    /\ status_code fetched = 200%Z
    /\ [[("text", Fixtures.str (JArray [Fixtures.claim_en]))]]
       = [[("text", Fixtures.str (JArray english))]].
Proof.
  apply (call_returns_only_on_200 unit
           (Fixtures.post_answers (Return Fixtures.token_ok))
           (Fixtures.get_answers
              (Return (Fixtures.fulltext (JArray [Fixtures.claim_en]))))
           (Some "id") (Some "secret") Fixtures.str
           Fixtures.patent_parameters tt tt).
  reflexivity.
Defined.

Lemma call_without_patent_data_witness :
  Fixtures.patent_call (Return Fixtures.token_ok)
    (Return Fixtures.empty_document) Fixtures.patent_parameters tt
  = (Return [[("text", "[]")]], tt).
Proof.
  apply (call_without_patent_data unit
           (Fixtures.post_answers (Return Fixtures.token_ok))
           (Fixtures.get_answers (Return Fixtures.empty_document))
           (Some "id") (Some "secret") Fixtures.str
           Fixtures.patent_parameters tt tt tt Fixtures.token_ok
           Fixtures.empty_document (JString "t0k3n") []);
    reflexivity.
Defined.

Lemma call_fetches_only_with_token_witness :
  Fixtures.patent_call (Return Fixtures.token_denied)
    (Return Fixtures.not_found) Fixtures.patent_parameters tt
  = call unit (Fixtures.post_answers (Return Fixtures.token_denied))
      Fixtures.get_other (Some "id") (Some "secret") Fixtures.str
      Fixtures.patent_parameters tt.
Proof.
  apply (call_fetches_only_with_token unit
           (Fixtures.post_answers (Return Fixtures.token_denied))
           (Fixtures.get_answers (Return Fixtures.not_found))
           Fixtures.get_other (Some "id") (Some "secret") Fixtures.str
           Fixtures.patent_parameters tt).
  intros token w1 H. injection H as <- _. discriminate.
Defined.

Lemma call_token_without_key_witness :
  Fixtures.patent_call (Return Fixtures.token_without_key)
    (Return Fixtures.not_found) Fixtures.patent_parameters tt
  = (Raise (KeyError "access_token"), tt).
Proof.
  apply (call_token_without_key unit
           (Fixtures.post_answers (Return Fixtures.token_without_key))
           (Fixtures.get_answers (Return Fixtures.not_found))
           (Some "id") (Some "secret") Fixtures.str
           Fixtures.patent_parameters tt tt Fixtures.token_without_key
           [("token_type", JString "bearer")]);
    reflexivity.
Defined.

Lemma call_fetch_exception_propagates_witness :
  call unit (Fixtures.post_answers (Return Fixtures.token_ok))
    Fixtures.get_raises (Some "id") (Some "secret") Fixtures.str
    Fixtures.patent_parameters tt
  = (Raise (ServiceError "read timed out"), tt).
Proof.
  apply (call_fetch_exception_propagates unit
           (Fixtures.post_answers (Return Fixtures.token_ok))
           Fixtures.get_raises (Some "id") (Some "secret") Fixtures.str
           Fixtures.patent_parameters tt tt tt Fixtures.token_ok
           (JString "t0k3n"));
    reflexivity.
Defined.

End PatentClaimsMore.

(** ** More about the agent router *)

Module AgentRouterMore.
Import Py AgentRouter.

Section Handlers.
Variable Session : Type.
Variable Request : Type.
Variable get_header_user_id : Request -> string.
Variable crud_create_agent : Session -> Agent -> outcome Agent * Session.
Variable crud_get_agents :
  Session -> Z -> Z -> outcome (list Agent) * Session.
Variable crud_get_agent_by_id :
  Session -> string -> outcome (option Agent) * Session.
Variable UpdateAgent : Type.
Variable crud_update_agent :
  Session -> Agent -> UpdateAgent -> outcome Agent * Session.
Variable crud_delete_agent : Session -> string -> outcome unit * Session.
Variable crud_create_agent_tool_metadata :
  Session -> AgentToolMetadata -> outcome AgentToolMetadata * Session.
Variable crud_get_all_agent_tool_metadata_by_agent_id :
  Session -> string -> outcome (list AgentToolMetadata) * Session.
Variable crud_get_agent_tool_metadata_by_id :
  Session -> string -> outcome (option AgentToolMetadata) * Session.
Variable UpdateAgentToolMetadata : Type.
Variable crud_update_agent_tool_metadata :
  Session -> AgentToolMetadata -> UpdateAgentToolMetadata
  -> outcome AgentToolMetadata * Session.
Variable crud_delete_agent_tool_metadata_by_id :
  Session -> string -> outcome unit * Session.

Local Abbreviation h_create_agent :=
  (create_agent Session Request get_header_user_id crud_create_agent
     crud_create_agent_tool_metadata).
Local Abbreviation h_list_agents := (list_agents Session crud_get_agents).
Local Abbreviation h_get_agent_by_id :=
  (get_agent_by_id Session crud_get_agent_by_id).
Local Abbreviation h_update_agent :=
  (update_agent Session crud_get_agent_by_id UpdateAgent crud_update_agent).
Local Abbreviation h_delete_agent :=
  (delete_agent Session crud_get_agent_by_id crud_delete_agent).
Local Abbreviation h_list_agent_tool_metadata :=
  (list_agent_tool_metadata Session
     crud_get_all_agent_tool_metadata_by_agent_id).
Local Abbreviation h_create_agent_tool_metadata :=
  (create_agent_tool_metadata Session Request get_header_user_id
     crud_create_agent_tool_metadata).
Local Abbreviation h_update_agent_tool_metadata :=
  (update_agent_tool_metadata Session crud_get_agent_tool_metadata_by_id
     UpdateAgentToolMetadata crud_update_agent_tool_metadata).
Local Abbreviation h_delete_agent_tool_metadata :=
  (delete_agent_tool_metadata Session crud_get_agent_tool_metadata_by_id
     crud_delete_agent_tool_metadata_by_id).

Ltac crud_cases :=
  repeat match goal with
         | |- context [match ?c with _ => _ end] => destruct c
         end; simpl; auto.

(** X14: an [HTTPException] that leaves a handler has status 500 in the
    creating and listing handlers, and 400 or 500 in the handlers that
    look a record up. *)
Theorem handlers_raise_400_or_500 (agent : CreateAgent) (request : Request)
    (offset limit : Z) (agent_id agent_tool_metadata_id : string)
    (new_agent : UpdateAgent) (payload : CreateAgentToolMetadata)
    (new_agent_tool_metadata : UpdateAgentToolMetadata)
    (st : state Session) :
  status_in [500%Z] (fst (h_create_agent agent request st))
  /\ status_in [500%Z] (fst (h_list_agents offset limit st))
  /\ status_in [500%Z] (fst (h_list_agent_tool_metadata agent_id st))
  /\ status_in [500%Z]
       (fst (h_create_agent_tool_metadata agent_id payload request st))
  /\ status_in [400%Z; 500%Z] (fst (h_get_agent_by_id agent_id st))
  /\ status_in [400%Z; 500%Z] (fst (h_update_agent agent_id new_agent st))
  /\ status_in [400%Z; 500%Z] (fst (h_delete_agent agent_id st))
  /\ status_in [400%Z; 500%Z]
       (fst (h_update_agent_tool_metadata agent_id agent_tool_metadata_id
               new_agent_tool_metadata st))
  /\ status_in [400%Z; 500%Z]
       (fst (h_delete_agent_tool_metadata agent_id agent_tool_metadata_id st)).
Proof.
  unfold create_agent, list_agents, list_agent_tool_metadata,
    create_agent_tool_metadata, get_agent_by_id, update_agent, delete_agent,
    update_agent_tool_metadata, delete_agent_tool_metadata.
  repeat split; crud_cases.
Qed.

(** X15: an exception of the lookup becomes [HTTPException] 500 in
    [get_agent_by_id] only; in the four other handlers the lookup is
    outside the [try] and the exception leaves the handler as it is. *)
Theorem lookup_exception_caught_only_in_get (agent_id
    agent_tool_metadata_id e e' : string) (new_agent : UpdateAgent)
    (new_agent_tool_metadata : UpdateAgentToolMetadata)
    (st : state Session) (s1 s2 : Session) :
  crud_get_agent_by_id (session Session st) agent_id = (Failed e, s1) ->
  crud_get_agent_tool_metadata_by_id (session Session st)
    agent_tool_metadata_id = (Failed e', s2) ->
  fst (h_get_agent_by_id agent_id st) = HTTPException 500 e
  /\ fst (h_update_agent agent_id new_agent st) = Uncaught e
  /\ fst (h_delete_agent agent_id st) = Uncaught e
  /\ fst (h_update_agent_tool_metadata agent_id agent_tool_metadata_id
            new_agent_tool_metadata st) = Uncaught e'
  /\ fst (h_delete_agent_tool_metadata agent_id agent_tool_metadata_id st)
     = Uncaught e'.
Proof.
  intros Ha Hm.
  unfold get_agent_by_id, update_agent, delete_agent,
    update_agent_tool_metadata, delete_agent_tool_metadata.
  rewrite Ha, Hm. repeat split.
Qed.

(** X16: when the lookup returns no record, the handler changes nothing
    but what the lookup changed: [request.state] stays as it was and no
    update or delete reaches the persistence layer. *)
Theorem missing_record_changes_nothing (agent_id
    agent_tool_metadata_id : string) (new_agent : UpdateAgent)
    (new_agent_tool_metadata : UpdateAgentToolMetadata)
    (st : state Session) (s1 s2 : Session) :
  crud_get_agent_by_id (session Session st) agent_id = (Done None, s1) ->
  crud_get_agent_tool_metadata_by_id (session Session st)
    agent_tool_metadata_id = (Done None, s2) ->
  snd (h_get_agent_by_id agent_id st) = with_session Session s1 st
  /\ snd (h_update_agent agent_id new_agent st) = with_session Session s1 st
  /\ snd (h_delete_agent agent_id st) = with_session Session s1 st
  /\ snd (h_update_agent_tool_metadata agent_id agent_tool_metadata_id
            new_agent_tool_metadata st) = with_session Session s2 st
  /\ snd (h_delete_agent_tool_metadata agent_id agent_tool_metadata_id st)
     = with_session Session s2 st.
Proof.
  intros Ha Hm.
  unfold get_agent_by_id, update_agent, delete_agent,
    update_agent_tool_metadata, delete_agent_tool_metadata.
  rewrite Ha, Hm. repeat split.
Qed.

(** X17: with [tools_metadata] absent or empty, [create_agent] returns the
    created agent after the one insert; no tool-metadata row is
    inserted. *)
Theorem create_agent_without_metadata (agent : CreateAgent)
    (request : Request) (st : state Session) (created : Agent)
    (s1 : Session) :
  tools_metadata agent = None \/ tools_metadata agent = Some [] ->
  crud_create_agent (session Session st)
    (agent_data Request get_header_user_id agent request) = (Done created, s1) ->
  h_create_agent agent request st
  = (Ok created,
     with_session Session s1
       (set_agent Session
          (agent_data Request get_header_user_id agent request) st)).
Proof.
  intros Hm Hc. unfold create_agent. simpl. rewrite Hc.
  destruct Hm as [-> | ->]; reflexivity.
Qed.

(** X18: when the agent insert raises, [create_agent] raises
    [HTTPException] 500 with its message and inserts no tool-metadata
    row. *)
Theorem create_agent_insert_fails (agent : CreateAgent) (request : Request)
    (st : state Session) (e : string) (s1 : Session) :
  crud_create_agent (session Session st)
    (agent_data Request get_header_user_id agent request) = (Failed e, s1) ->
  h_create_agent agent request st
  = (HTTPException 500 e,
     with_session Session s1
       (set_agent Session
          (agent_data Request get_header_user_id agent request) st)).
Proof. intros Hc. unfold create_agent. simpl. now rewrite Hc. Qed.

(** X19: once the agent is found, [update_agent] records an agent in
    [request.state] only when the update succeeded, while [delete_agent]
    records the agent found before it deletes, so also when the delete
    raises. *)
Theorem request_state_after_update_and_delete (agent_id : string)
    (new_agent : UpdateAgent) (st : state Session) (agent : Agent)
    (s1 : Session) :
  crud_get_agent_by_id (session Session st) agent_id
  = (Done (Some agent), s1) ->
  state_agent Session (snd (h_update_agent agent_id new_agent st))
  = match fst (crud_update_agent s1 agent new_agent) with
    | Done updated => Some updated
    | Failed _ => state_agent Session st
    end
  /\ state_agent Session (snd (h_delete_agent agent_id st)) = Some agent.
Proof.
  intros Ha. unfold update_agent, delete_agent. rewrite Ha. split.
  - destruct (crud_update_agent s1 agent new_agent) as [[updated|e] s2];
      reflexivity.
  - destruct (crud_delete_agent s1 agent_id) as [[u|e] s2]; reflexivity.
Qed.
End Handlers.

End AgentRouterMore.

(** More runs of the handlers on the in-memory store. *)

Module AgentRouterMoreRuns.
Import Py AgentRouter AgentRouterMore Fixtures.

Lemma lookup_exception_caught_only_in_get_witness :
  fst (get_agent_by_id Store lookup_down "0" fresh_state)
  = HTTPException 500 "connection lost"
  /\ fst (update_agent Store lookup_down string store_update_agent
            "0" "renamed" fresh_state) = Uncaught "connection lost"
  /\ fst (delete_agent Store lookup_down store_delete_agent "0" fresh_state)
     = Uncaught "connection lost"
  /\ fst (update_agent_tool_metadata Store lookup_down string
            store_update_agent_tool_metadata "0" "1" "renamed" fresh_state)
     = Uncaught "connection lost"
  /\ fst (delete_agent_tool_metadata Store lookup_down
            store_delete_agent_tool_metadata_by_id "0" "1" fresh_state)
     = Uncaught "connection lost".
Proof.
  apply (lookup_exception_caught_only_in_get Store lookup_down string
           store_update_agent store_delete_agent lookup_down string
           store_update_agent_tool_metadata
           store_delete_agent_tool_metadata_by_id
           "0" "1" "connection lost" "connection lost" "renamed" "renamed"
           fresh_state empty_store empty_store); reflexivity.
Defined.

Lemma missing_record_changes_nothing_witness :
  snd (mem_get_agent_by_id "a-404" fresh_state) = fresh_state
  /\ snd (mem_update_agent "a-404" "renamed" fresh_state) = fresh_state
  /\ snd (mem_delete_agent "a-404" fresh_state) = fresh_state
  /\ snd (mem_update_agent_tool_metadata "a-404" "m-404" "renamed" fresh_state)
     = fresh_state
  /\ snd (mem_delete_agent_tool_metadata "a-404" "m-404" fresh_state)
     = fresh_state.
Proof.
  apply (missing_record_changes_nothing Store store_get_agent_by_id string
           store_update_agent store_delete_agent
           store_get_agent_tool_metadata_by_id string
           store_update_agent_tool_metadata
           store_delete_agent_tool_metadata_by_id
           "a-404" "m-404" "renamed" "renamed" fresh_state
           empty_store empty_store); reflexivity.
Defined.

Lemma create_agent_without_metadata_witness :
  mem_create_agent payload_without_metadata tt fresh_state
  = (Ok created_row,
     {| session := store_after_agent;
        state_agent :=
          Some (agent_data unit header_user payload_without_metadata tt);
        state_agent_tool_metadata := None |}).
Proof.
  apply (create_agent_without_metadata Store unit header_user
           store_create_agent store_create_agent_tool_metadata
           payload_without_metadata tt fresh_state created_row
           store_after_agent).
  - right. reflexivity.
  - reflexivity.
Defined.

Lemma create_agent_insert_fails_witness :
  create_agent Store unit header_user create_agent_down
    store_create_agent_tool_metadata payload tt fresh_state
  = (HTTPException 500 "disk full",
     {| session := empty_store;
        state_agent := Some (agent_data unit header_user payload tt);
        state_agent_tool_metadata := None |}).
Proof.
  apply (create_agent_insert_fails Store unit header_user create_agent_down
           store_create_agent_tool_metadata payload tt fresh_state
           "disk full" empty_store).
  reflexivity.
Defined.

Lemma request_state_after_update_and_delete_witness :
  state_agent Store
    (snd (update_agent Store store_get_agent_by_id string update_down
            "0" "renamed" state_with_agent)) = None
  /\ state_agent Store
       (snd (delete_agent Store store_get_agent_by_id delete_down
               "0" state_with_agent)) = Some created_row.
Proof.
  apply (request_state_after_update_and_delete Store store_get_agent_by_id
           string update_down delete_down "0" "renamed" state_with_agent
           created_row store_after_agent).
  reflexivity.
Defined.

End AgentRouterMoreRuns.
